(** * s3multipart: a shallow embedding of [s3multipart/cli.py]

    The four commands of the tool ([init], [upload], [abort], [finalize]) are
    modelled as computations in a small state-and-exception monad over a
    [world] made of the state file [multipart.json], the terminal output and
    the trace of calls made on the storage client.  The storage client itself
    (boto3) and the file system are external to the program: they appear as
    section variables.

    Conventions.
    - Python [str] values are Rocq strings; file names are taken to be ASCII.
    - Python dictionaries are association lists in insertion order, which is
      also the order [json.dumps] writes them in.
    - The text of [multipart.json] is represented by the value it is the JSON
      dump of ([Document v]), or by [Garbled] when it is not a JSON document
      (an empty or truncated file). *)

From Stdlib Require Import List String Ascii ZArith Bool Lia Arith.
From Stdlib Require Import Sorting.Sorted Sorting.Permutation.
Import ListNotations.

Set Warnings "-register-all".

Local Open Scope string_scope.
Local Open Scope Z_scope.
Local Open Scope list_scope.

(** ** Python values *)

Inductive pyval : Type :=
| PNone
| PBool (b : bool)
| PInt (n : Z)
| PStr (s : string)
| PList (items : list pyval)
| PDict (fields : list (string * pyval))
| PObj (repr : string).  (* any object [json] cannot serialise, e.g. a datetime *)

Inductive exn : Type :=
| KeyError (key : string)
| TypeError
| AttributeError
| ValueError
| JSONDecodeError
| FileNotFoundError
| OSError                       (* an entry of the folder that cannot be opened *)
| ClientError (what : string)   (* whatever the storage client raises *)
| SystemExit (code : Z).

Module Py.

(** [d[k]] on a dictionary: first binding of [k]. *)
Fixpoint lookup (k : string) (fields : list (string * pyval)) : option pyval :=
  match fields with
  | [] => None
  | (k', v) :: rest => if String.eqb k' k then Some v else lookup k rest
  end.

(** [d[k] = v] on a dictionary: an existing key keeps its position, a new
    key goes last. *)
Fixpoint store (k : string) (v : pyval) (fields : list (string * pyval))
  : list (string * pyval) :=
  match fields with
  | [] => [(k, v)]
  | (k', v') :: rest =>
      if String.eqb k' k then (k', v) :: rest else (k', v') :: store k v rest
  end.

(** [x[k]] for a string key [k]. *)
Definition getitem (x : pyval) (k : string) : exn + pyval :=
  match x with
  | PDict fields =>
      match lookup k fields with
      | Some v => inr v
      | None => inl (KeyError k)
      end
  | _ => inl TypeError
  end.

(** [x.get(k, default)]. *)
Definition get (x : pyval) (k : string) (default : pyval) : exn + pyval :=
  match x with
  | PDict fields =>
      match lookup k fields with
      | Some v => inr v
      | None => inr default
      end
  | _ => inl AttributeError
  end.

(** [x[k] = v]. *)
Definition setitem (x : pyval) (k : string) (v : pyval) : exn + pyval :=
  match x with
  | PDict fields => inr (PDict (store k v fields))
  | _ => inl TypeError
  end.

(** [x + y] where [y] is a list. *)
Definition add_list (x : pyval) (y : list pyval) : exn + pyval :=
  match x with
  | PList items => inr (PList (items ++ y))
  | _ => inl TypeError
  end.

(** [s[1:-1]] on a string. *)
Definition str_slice_1_m1 (s : string) : string :=
  substring 1 (String.length s - 2) s.

(** [x[1:-1]]: defined on sequences. *)
Definition slice_1_m1 (x : pyval) : exn + pyval :=
  match x with
  | PStr s => inr (PStr (str_slice_1_m1 s))
  | PList items => inr (PList (removelast (tl items)))
  | _ => inl TypeError
  end.

(** [x == n] for an integer literal [n]. *)
Definition eq_int (x : pyval) (n : Z) : bool :=
  match x with
  | PInt m => Z.eqb m n
  | PBool b => Z.eqb (if b then 1 else 0) n
  | _ => false
  end.

(** Whether [json.dumps] accepts the value. *)
Fixpoint serialisable (x : pyval) : bool :=
  match x with
  | PObj _ => false
  | PList items => forallb serialisable items
  | PDict fields => forallb (fun kv => serialisable (snd kv)) fields
  | _ => true
  end.

(** *** [int(s)] on ASCII text *)

Definition is_digit (c : ascii) : bool :=
  (48 <=? nat_of_ascii c)%nat && (nat_of_ascii c <=? 57)%nat.

Definition digit_value (c : ascii) : Z := Z.of_nat (nat_of_ascii c) - 48.

(** The characters [int] skips at both ends of an ASCII text: tab, line
    feed, vertical tab, form feed, carriage return and space. *)
Definition is_space (c : ascii) : bool :=
  let n := nat_of_ascii c in
  ((9 <=? n) && (n <=? 13) || (n =? 32))%nat.

Fixpoint lstrip (s : string) : string :=
  match s with
  | String c rest => if is_space c then lstrip rest else s
  | EmptyString => s
  end.

Fixpoint rstrip (s : string) : string :=
  match s with
  | EmptyString => EmptyString
  | String c rest =>
      match rstrip rest with
      | EmptyString => if is_space c then EmptyString else String c EmptyString
      | r => String c r
      end
  end.

(** Digits with single underscores between them, most significant first;
    [acc] is the value read so far and [after_digit] tells whether the
    previous character was a digit. *)
Fixpoint digits_value (s : string) (acc : Z) (after_digit : bool) : option Z :=
  match s with
  | EmptyString => if after_digit then Some acc else None
  | String c rest =>
      if is_digit c then digits_value rest (10 * acc + digit_value c) true
      else if Ascii.eqb c "_" then
             if after_digit then digits_value rest acc false else None
           else None
  end.

(** [int(s)]: [None] stands for [ValueError]. *)
Definition int (s : string) : option Z :=
  match rstrip (lstrip s) with
  | String c rest =>
      if Ascii.eqb c "+" then digits_value rest 0 false
      else if Ascii.eqb c "-" then option_map Z.opp (digits_value rest 0 false)
      else digits_value (String c rest) 0 false
  | EmptyString => None
  end.

End Py.

(** ** [pathlib] and [re] *)

Module Path.

(** [s.rfind(c)]: [None] stands for -1. *)
Fixpoint rfind (c : ascii) (s : string) : option nat :=
  match s with
  | EmptyString => None
  | String a rest =>
      match rfind c rest with
      | Some i => Some (S i)
      | None => if Ascii.eqb a c then Some O else None
      end
  end.

(** [PurePath.suffix]: the last dot of the name and what follows it, unless
    that dot starts or ends the name. *)
Definition suffix (name : string) : string :=
  match rfind "." name with
  | Some i =>
      if ((0 <? i) && (i <? String.length name - 1))%nat
      then substring i (String.length name - i) name
      else EmptyString
  | None => EmptyString
  end.

End Path.

Module Re.

Fixpoint digits_prefix (s : string) : string :=
  match s with
  | String c rest => if Py.is_digit c then String c (digits_prefix rest) else EmptyString
  | EmptyString => EmptyString
  end.

(** [re.match(r'\.[0-9]+', s)]: the text matched at the start of [s], if
    any. *)
Definition match_dot_digits (s : string) : option string :=
  match s with
  | String "." rest =>
      match digits_prefix rest with
      | EmptyString => None
      | ds => Some (String "." ds)
      end
  | _ => None
  end.

End Re.

(** ** The part files of a folder *)

(** An entry of the folder: its name, and the bytes [open('rb')] gives to
    read, [None] when the entry cannot be opened (a directory, a dangling
    link, a file the user may not read). *)
Record dirent : Type := { name : string; body : option string }.

(** [sorted]: paths of one folder compare as their names do, character by
    character.  A stable insertion sort: an entry goes in front of the first
    one that is not smaller than it. *)
Fixpoint insert (x : dirent) (l : list dirent) : list dirent :=
  match l with
  | [] => [x]
  | y :: rest =>
      if String.ltb (name y) (name x) then y :: insert x rest else x :: l
  end.

Fixpoint sorted (l : list dirent) : list dirent :=
  match l with
  | [] => []
  | x :: rest => insert x (sorted rest)
  end.

Definition is_part (f : dirent) : bool :=
  match Re.match_dot_digits (Path.suffix (name f)) with
  | Some _ => true
  | None => false
  end.

(** Line 95: [sorted([f for f in iterdir() if re.match(r'\.[0-9]+', f.suffix)])]. *)
Definition find_parts (entries : list dirent) : list dirent :=
  sorted (filter is_part entries).

(** Line 109: [int(part.suffix[1:])]. *)
Definition part_number (f : dirent) : option Z :=
  let sfx := Path.suffix (name f) in
  Py.int (substring 1 (String.length sfx - 1) sfx).

(** ** The world the commands run in *)

Inductive contents : Type :=
| Document (v : pyval)   (* the text [json.dumps v] *)
| Garbled.               (* text that [json.load] rejects *)

Inductive colour : Type := Red | Green | Blue | Yellow.

(** What [click.secho] is called with, one constructor per call site. *)
Inductive message : Type :=
| NoActiveUpload                         (* line 59 *)
| Started (bucket key : string)          (* line 75 *)
| PassFolder                             (* line 94 *)
| NoPartsIn (src : string)               (* line 97 *)
| FoundPartsIn (src : string)            (* line 98 *)
| PartName (file : string)               (* line 100 *)
| Aborted (bucket key : pyval)           (* line 135 *)
| Finalized (bucket key : pyval)         (* line 156 *)
| BadHTTPResponse                        (* lines 137, 158 *)
| Dump (resp : pyval).                   (* lines 138, 159: [json.dumps(resp, indent=2)] *)

(** The four operations the program calls on the S3 client. *)
Inductive request : Type :=
| CreateMultipartUpload (bucket key sse : string)
| UploadPart (bucket key upload_id : pyval) (number : Z) (data : string)
| AbortMultipartUpload (bucket key upload_id : pyval)
| CompleteMultipartUpload (bucket key upload_id mpu : pyval).

Inductive reply : Type :=
| Returns (resp : pyval)
| Raises (what : string).

Record world : Type := {
  file : option contents;           (* [multipart.json], if it exists *)
  out : list (message * colour);    (* what was echoed, oldest first *)
  calls : list request              (* calls made on the client, oldest first *)
}.

(** ** Computations: state and exceptions *)

Definition M (A : Type) : Type := world -> (exn + A) * world.

Definition ret {A} (a : A) : M A := fun w => (inr a, w).

Definition raise {A} (e : exn) : M A := fun w => (inl e, w).

Definition bind {A B} (m : M A) (k : A -> M B) : M B :=
  fun w =>
    match m w with
    | (inr a, w') => k a w'
    | (inl e, w') => (inl e, w')
    end.

Declare Scope prog_scope.
Delimit Scope prog_scope with prog.
Notation "x <- m ;; k" := (bind m (fun x => k))
  (at level 61, m at next level, right associativity) : prog_scope.
Notation "m ;; k" := (bind m (fun _ => k))
  (at level 61, right associativity) : prog_scope.
Local Open Scope prog_scope.

(** A Python expression that may raise. *)
Definition lift {A} (r : exn + A) : M A :=
  match r with
  | inr a => ret a
  | inl e => raise e
  end.

Definition when (b : bool) (m : M unit) : M unit := if b then m else ret tt.

Fixpoint for_each {A} (items : list A) (f : A -> M unit) : M unit :=
  match items with
  | [] => ret tt
  | x :: rest => f x ;; for_each rest f
  end.

(** [click.secho(msg, fg=c)]. *)
Definition secho (msg : message) (c : colour) : M unit :=
  fun w => (inr tt, {| file := file w; out := out w ++ [(msg, c)]; calls := calls w |}).

(** [MULTIPART_FILENAME.exists()]. *)
Definition exists_ : M bool :=
  fun w => (inr (match file w with Some _ => true | None => false end), w).

(** [with MULTIPART_FILENAME.open('r') as fp: json.load(fp)]. *)
Definition load : M pyval :=
  fun w =>
    match file w with
    | None => (inl FileNotFoundError, w)
    | Some Garbled => (inl JSONDecodeError, w)
    | Some (Document v) => (inr v, w)
    end.

(** [MULTIPART_FILENAME.open('w')]: the file is created or emptied. *)
Definition open_w : M unit :=
  fun w => (inr tt, {| file := Some Garbled; out := out w; calls := calls w |}).

(** [fp.write(text)] for the dump of [v], the file being empty. *)
Definition write (v : pyval) : M unit :=
  fun w => (inr tt, {| file := Some (Document v); out := out w; calls := calls w |}).

(** [json.dumps(v)]. *)
Definition json_dumps (v : pyval) : M pyval :=
  if Py.serialisable v then ret v else raise TypeError.

(** [json.dump(v, fp)]: the text is written piece by piece, so a value that
    cannot be serialised leaves an incomplete text behind. *)
Definition json_dump (v : pyval) : M unit :=
  if Py.serialisable v then write v else raise TypeError.

(** [os.remove(MULTIPART_FILENAME)]. *)
Definition remove : M unit :=
  fun w =>
    match file w with
    | None => (inl FileNotFoundError, w)
    | Some _ => (inr tt, {| file := None; out := out w; calls := calls w |})
    end.

(** [error(msg)], lines 37-42. *)
Definition error {A} (msg : message) : M A :=
  secho msg Red ;; raise (SystemExit 1).

(** [check_multipart(func)], lines 52-61. *)
Definition check_multipart (func : M unit) : M unit :=
  present <- exists_ ;;
  when (negb present) (error NoActiveUpload) ;;
  func.

(** ** The commands *)

Section Commands.

(** The storage client: what a call answers, given the calls made before
    it.  A raised exception is not caught anywhere in the program. *)
Variable s3 : list request -> request -> reply.

(** The file system under the source folder: [None] when the path is not a
    directory, else its entries in the order [iterdir] yields them. *)
Variable folder : string -> option (list dirent).

Definition call (rq : request) : M pyval :=
  fun w =>
    let w' := {| file := file w; out := out w; calls := calls w ++ [rq] |} in
    match s3 (calls w) rq with
    | Returns resp => (inr resp, w')
    | Raises what => (inl (ClientError what), w')
    end.

(** Lines 71-75. *)
Definition init (bucket key : string) : M unit :=
  mpupload <- call (CreateMultipartUpload bucket key "AES256") ;;
  open_w ;;
  text <- json_dumps mpupload ;;
  write text ;;
  secho (Started bucket key) Green.

(** Lines 86-90, 127-131 and 147-151: the three fields every command reads. *)
Definition session_fields (data : pyval) : M (pyval * pyval * pyval) :=
  bucket <- lift (Py.getitem data "Bucket") ;;
  key <- lift (Py.getitem data "Key") ;;
  upload_id <- lift (Py.getitem data "UploadId") ;;
  ret (bucket, key, upload_id).

(** Lines 109-117: one turn of the upload loop. *)
Definition upload_one (bucket key upload_id : pyval) (part : dirent) : M unit :=
  number <- lift (match part_number part with
                  | Some n => inr n
                  | None => inl ValueError
                  end) ;;
  data <- lift (match body part with
                | Some bytes => inr bytes
                | None => inl OSError
                end) ;;
  resp <- call (UploadPart bucket key upload_id number data) ;;
  quoted <- lift (Py.getitem resp "ETag") ;;
  etag <- lift (Py.slice_1_m1 quoted) ;;
  data <- load ;;
  old <- lift (Py.get data "Parts" (PList [])) ;;
  parts <- lift (Py.add_list old
                   [PDict [("ETag", etag); ("PartNumber", PInt number)]]) ;;
  data' <- lift (Py.setitem data "Parts" parts) ;;
  open_w ;;
  json_dump data'.

(** Lines 86-103: everything [upload] does before the loop; the result is
    what the loop runs on. *)
Definition upload_plan (src : string) (proceed : bool)
  : M (pyval * pyval * pyval * list dirent) :=
  data <- load ;;
  ids <- session_fields data ;;
  match folder src with
  | None => error PassFolder
  | Some entries =>
      let parts := find_parts entries in
      when (match parts with [] => true | _ => false end)
           (error (NoPartsIn src)) ;;
      secho (FoundPartsIn src) Green ;;
      for_each parts (fun part => secho (PartName (name part)) Blue) ;;
      when (negb proceed) (raise (SystemExit 0)) ;;
      ret (ids, parts)
  end.

(** Lines 78-117.  [proceed] is the answer to the confirmation prompt. *)
Definition upload (src : string) (proceed : bool) : M unit :=
  check_multipart
    (plan <- upload_plan src proceed ;;
     let '(bucket, key, upload_id, parts) := plan in
     for_each parts (upload_one bucket key upload_id)).


(** [resp['ResponseMetadata']['HTTPStatusCode']]. *)
Definition status_code (resp : pyval) : exn + pyval :=
  match Py.getitem resp "ResponseMetadata" with
  | inr meta => Py.getitem meta "HTTPStatusCode"
  | inl e => inl e
  end.

(** Lines 120-138. *)
Definition abort : M unit :=
  check_multipart
    (data <- load ;;
     ids <- session_fields data ;;
     let '(bucket, key, upload_id) := ids in
     resp <- call (AbortMultipartUpload bucket key upload_id) ;;
     status <- lift (status_code resp) ;;
     if Py.eq_int status 204 then
       remove ;;
       secho (Aborted bucket key) Yellow
     else
       secho BadHTTPResponse Red ;;
       text <- json_dumps resp ;;
       secho (Dump text) Red).

(** Lines 140-159. *)
Definition finalize : M unit :=
  check_multipart
    (data <- load ;;
     ids <- session_fields data ;;
     let '(bucket, key, upload_id) := ids in
     parts <- lift (Py.getitem data "Parts") ;;
     let mpu := PDict [("Parts", parts)] in
     resp <- call (CompleteMultipartUpload bucket key upload_id mpu) ;;
     status <- lift (status_code resp) ;;
     if Py.eq_int status 200 then
       remove ;;
       secho (Finalized bucket key) Green
     else
       secho BadHTTPResponse Red ;;
       text <- json_dumps resp ;;
       secho (Dump text) Red).

(** The command line, after [click] has parsed it. *)
Inductive command : Type :=
| Init (bucket key : string)
| Upload (src : string) (proceed : bool)
| Abort
| Finalize.

Definition cli (c : command) : M unit :=
  match c with
  | Init bucket key => init bucket key
  | Upload src proceed => upload src proceed
  | Abort => abort
  | Finalize => finalize
  end.

End Commands.

(** The exit status of the process: 0 when the command returns, the argument
    of [sys.exit], and 1 after a traceback. *)
Definition exit_status (r : exn + unit) : Z :=
  match r with
  | inr _ => 0
  | inl (SystemExit code) => code
  | inl _ => 1
  end.

Definition no_file : world := {| file := None; out := []; calls := [] |}.

Definition holding (v : pyval) : world :=
  {| file := Some (Document v); out := []; calls := [] |}.

(** ** Sample data and the notions the statements use *)

Definition requires_session (c : command) : bool :=
  match c with
  | Init _ _ => false
  | _ => true
  end.

(** C5 as the specification words it: [init] on an existing record ends with
    an error and leaves the record as it is. *)
Definition init_guarded : Prop :=
  forall s3 bucket key w c,
    file w = Some c ->
    exists e, fst (init s3 bucket key w) = inl e
              /\ file (snd (init s3 bucket key w)) = file w.

Definition first_session : pyval :=
  PDict [("Bucket", PStr "bucket1"); ("Key", PStr "obj.bin"); ("UploadId", PStr "U1")].

Definition second_session : pyval :=
  PDict [("Bucket", PStr "bucket1"); ("Key", PStr "other.bin"); ("UploadId", PStr "U2")].

Definition http (status : Z) : pyval :=
  PDict [("ResponseMetadata", PDict [("HTTPStatusCode", PInt status)])].

Definition recorded_session : pyval :=
  PDict [("Bucket", PStr "bucket1"); ("Key", PStr "obj.bin"); ("UploadId", PStr "U1");
         ("Parts", PList [PDict [("ETag", PStr "e1"); ("PartNumber", PInt 1)]])].

Definition quote : ascii := "034"%char.

(** The text [s] between two double quotes, as S3 sends its entity tags. *)
Definition quoted (s : string) : string :=
  String quote (s ++ String quote EmptyString)%string.

Definition etag_reply (tag : string) : pyval := PDict [("ETag", PStr tag)].

(** One element of the [Parts] list. *)
Definition part_entry (etag : pyval) (number : Z) : pyval :=
  PDict [("ETag", etag); ("PartNumber", PInt number)].

(** The completed parts a record shows: what [data.get('Parts', [])] is when
    it is a list. *)
Definition recorded (fields : list (string * pyval)) : option (list pyval) :=
  match Py.lookup "Parts" fields with
  | None => Some []
  | Some (PList items) => Some items
  | Some _ => None
  end.

Definition completed (w : world) : option (list pyval) :=
  match file w with
  | Some (Document (PDict fields)) => recorded fields
  | _ => None
  end.

Definition big01 : dirent := {| name := "big.01"; body := Some "first" |}.
Definition big02 : dirent := {| name := "big.02"; body := Some "second" |}.
Definition readme : dirent := {| name := "README.md"; body := Some "about" |}.
Definition notes1a : dirent := {| name := "notes.1a"; body := Some "draft" |}.

Definition one_folder (entries : list dirent) (src : string) : option (list dirent) :=
  if String.eqb src "parts" then Some entries else None.

(** The number [upload] sends a part under, 0 standing for none. *)
Definition number_of (part : dirent) : Z :=
  match part_number part with
  | Some n => n
  | None => 0
  end.

(** The bytes [upload] sends for a part, none standing for an entry that
    cannot be opened. *)
Definition content_of (part : dirent) : string :=
  match body part with
  | Some bytes => bytes
  | None => EmptyString
  end.

(** The call [upload] makes for a part. *)
Definition request_for (bucket key upload_id : pyval) (part : dirent) : request :=
  UploadPart bucket key upload_id (number_of part) (content_of part).

(** The transfers of [parts], made one after the other from the trace
    [history], all succeed: each part has a number and can be opened, and the
    client answers the call made for it, at the point of the trace where it
    is made, with the entity tag listed for it in [tags].  Nothing is asked of
    the client on any other call. *)
Fixpoint answered_with (s3 : list request -> request -> reply)
         (bucket key upload_id : pyval) (history : list request)
         (parts : list dirent) (tags : list string) : Prop :=
  match parts, tags with
  | [], [] => True
  | part :: parts', tag :: tags' =>
      part_number part <> None
      /\ body part <> None
      /\ (exists resp,
            s3 history (request_for bucket key upload_id part) = Returns resp
            /\ Py.getitem resp "ETag" = inr (PStr tag))
      /\ answered_with s3 bucket key upload_id
           (history ++ [request_for bucket key upload_id part]) parts' tags'
  | _, _ => False
  end.

(** The entries a run records for [parts] answered with [tags]: for each
    part, its number and its tag less the first and the last character. *)
Fixpoint entries_for (parts : list dirent) (tags : list string) : list pyval :=
  match parts, tags with
  | part :: parts', tag :: tags' =>
      part_entry (PStr (Py.str_slice_1_m1 tag)) (number_of part)
      :: entries_for parts' tags'
  | _, _ => []
  end.


(** *** Part files as the specification describes them *)

Fixpoint all_digits (s : string) : bool :=
  match s with
  | EmptyString => true
  | String c rest => Py.is_digit c && all_digits rest
  end.

(** A text of decimal digits read as a base-10 integer, leading zeros
    allowed. *)
Fixpoint decimal_from (acc : Z) (s : string) : Z :=
  match s with
  | EmptyString => acc
  | String c rest => decimal_from (10 * acc + Py.digit_value c) rest
  end.

Definition decimal (s : string) : Z := decimal_from 0 s.

(** [file] is named [stem.ext], where [ext] is made of [width] digits. *)
Definition padded (stem : string) (width : nat) (ext : string) (file : string) : Prop :=
  file = (stem ++ String "." ext)%string
  /\ all_digits ext = true
  /\ String.length ext = width.

(** [part] is such a file and [number] is its extension read in base 10. *)
Definition numbered (stem : string) (width : nat) (part : dirent) (number : Z) : Prop :=
  exists ext, padded stem width ext (name part) /\ number = decimal ext.

(** The name ends in a dot followed by digits only. *)
Definition numeric_extension (file : string) : Prop :=
  exists stem ext,
    file = (stem ++ String "." ext)%string /\ ext <> EmptyString /\ all_digits ext = true.

(** C3 as the specification words it: whatever the names before the
    extensions are, [N] part files with extensions of one width come out as
    [N] entries with ascending part numbers. *)
Definition resolves_in_numeric_order : Prop :=
  forall width entries parts others,
    (0 < width)%nat ->
    Permutation entries (parts ++ others) ->
    NoDup (map name entries) ->
    Forall (fun part => exists stem ext, padded stem width ext (name part)) parts ->
    Forall (fun other => ~ numeric_extension (name other)) others ->
    exists numbers,
      map part_number (find_parts entries) = map Some numbers
      /\ List.length numbers = List.length parts
      /\ StronglySorted Z.lt numbers.

Definition a02 : dirent := {| name := "a.02"; body := Some "second" |}.
Definition b01 : dirent := {| name := "b.01"; body := Some "first" |}.

(** *** Orders on entries, for a key read off each entry *)

(** On [l], names compare as keys do. *)
Definition names_follow_keys (key : dirent -> Z) (l : list dirent) : Prop :=
  forall x y, In x l -> In y l -> String.ltb (name x) (name y) = (key x <? key y).

Definition below (key : dirent -> Z) (a b : dirent) : Prop := key a <= key b.

Definition strictly_below (key : dirent -> Z) (a b : dirent) : Prop := key a < key b.

(** ** Notions used by the properties of the whole commands *)

(** The bindings of a record other than [Parts], in their order. *)
Definition other_fields (fields : list (string * pyval)) : list (string * pyval) :=
  filter (fun kv => negb (String.eqb (fst kv) "Parts")) fields.

(** What [json.load] followed by [data['Bucket']] raises on a file that does
    not hold a JSON object. *)
Definition unreadable (c : contents) : option exn :=
  match c with
  | Garbled => Some JSONDecodeError
  | Document (PDict _) => None
  | Document _ => Some TypeError
  end.

(** What [upload] echoes before it asks for confirmation. *)
Definition listing (src : string) (parts : list dirent) : list (message * colour) :=
  (FoundPartsIn src, Green) :: map (fun part => (PartName (name part), Blue)) parts.

(** [a] is not after [b] in the order [sorted] uses. *)
Definition name_le (a b : dirent) : Prop := String.ltb (name b) (name a) = false.

(** A client that refuses the part numbered 2 and accepts the others. *)
Definition refuses_second (history : list request) (rq : request) : reply :=
  match rq with
  | UploadPart _ _ _ 2 _ => Raises "RequestTimeout"
  | _ => Returns (etag_reply (quoted "e1"))
  end.

(** The HTTP status a response carries, read off its metadata. *)
Definition http_status (resp : pyval) : option Z :=
  match resp with
  | PDict fields =>
      match Py.lookup "ResponseMetadata" fields with
      | Some (PDict meta) =>
          match Py.lookup "HTTPStatusCode" meta with
          | Some (PInt n) => Some n
          | _ => None
          end
      | _ => None
      end
  | _ => None
  end.




(** * Properties *)

Example find_parts_ex :
  map name (find_parts [ {| name := "big.02"; body := Some "b" |};
                         {| name := "README.md"; body := Some "" |};
                         {| name := "big.01"; body := Some "a" |} ])
  = ["big.01"; "big.02"].
Proof. reflexivity. Qed.

Example part_number_ex :
  part_number {| name := "big.007"; body := None |} = Some 7.
Proof. reflexivity. Qed.

Example int_ex :
  Py.int " 1_000 " = Some 1000 /\ Py.int "1__0" = None /\ Py.int "-12" = Some (-12)
  /\ Py.int "1a" = None /\ Py.int "" = None.
Proof. repeat split. Qed.


Example int_blanks_ex :
  Py.int (String "1" (String "009" EmptyString)) = Some 1
  /\ Py.int (String "1" (String "028" EmptyString)) = None
  /\ part_number {| name := String "b" (String "." (String "1" (String "028" EmptyString)));
                    body := None |} = None.
Proof. repeat split. Qed.

(** ** Running a computation *)

Lemma bind_ok {A B} (m : M A) (k : A -> M B) w a w' :
  m w = (inr a, w') -> bind m k w = k a w'.
Proof. intros H. unfold bind. now rewrite H. Qed.

Lemma bind_raise {A B} (m : M A) (k : A -> M B) w e w' :
  m w = (inl e, w') -> bind m k w = (inl e, w').
Proof. intros H. unfold bind. now rewrite H. Qed.

Lemma bind_assoc {A B C} (m : M A) (k : A -> M B) (h : B -> M C) w :
  bind (bind m k) h w = bind m (fun a => bind (k a) h) w.
Proof.
  unfold bind. destruct (m w) as [[e | a] w1]; [reflexivity |].
  destruct (k a w1) as [[e | b] w2]; reflexivity.
Qed.

Lemma for_each_app {A} (l1 l2 : list A) (f : A -> M unit) w :
  for_each (l1 ++ l2) f w = bind (for_each l1 f) (fun _ => for_each l2 f) w.
Proof.
  revert w. induction l1 as [| x l1 IH]; intros w; simpl.
  - reflexivity.
  - unfold bind. destruct (f x w) as [[e | []] w1]; [reflexivity |].
    rewrite IH. reflexivity.
Qed.

(** A loop killed after [k] turns and resumed on the remaining items does
    what the whole loop does. *)
Lemma for_each_killed_then_resumed {A} (k : nat) (items : list A) (f : A -> M unit) w :
  for_each items f w
  = bind (for_each (firstn k items) f) (fun _ => for_each (skipn k items) f) w.
Proof. rewrite <- (firstn_skipn k items) at 1. apply for_each_app. Qed.

Lemma check_multipart_absent (func : M unit) w :
  file w = None ->
  check_multipart func w
  = (inl (SystemExit 1),
     {| file := None; out := out w ++ [(NoActiveUpload, Red)]; calls := calls w |}).
Proof.
  intros H. unfold check_multipart, bind, exists_, when, error, bind, secho, raise.
  rewrite H. simpl. now rewrite H.
Qed.

Lemma check_multipart_present (func : M unit) w c :
  file w = Some c -> check_multipart func w = func w.
Proof.
  intros H. unfold check_multipart, bind, exists_, when, ret.
  rewrite H. simpl. reflexivity.
Qed.

Lemma session_fields_ok data bucket key upload_id w :
  Py.getitem data "Bucket" = inr bucket ->
  Py.getitem data "Key" = inr key ->
  Py.getitem data "UploadId" = inr upload_id ->
  session_fields data w = (inr (bucket, key, upload_id), w).
Proof.
  intros Hb Hk Hu. unfold session_fields, bind, lift, ret.
  rewrite Hb, Hk, Hu. reflexivity.
Qed.

(** ** Commands that need a session *)

(** C7.  upload, abort and finalize, run while [multipart.json] does not exist,
    echo "No active multipart upload in progress!" and exit with status 1; the
    storage client is not called and nothing is written. *)
Theorem no_session_no_remote_call s3 folder (c : command) (w : world) :
  requires_session c = true ->
  file w = None ->
  cli s3 folder c w
  = (inl (SystemExit 1),
     {| file := None; out := out w ++ [(NoActiveUpload, Red)]; calls := calls w |})
  /\ exit_status (fst (cli s3 folder c w)) <> 0
  /\ calls (snd (cli s3 folder c w)) = calls w.
Proof.
  intros Hc Hw.
  assert (E : cli s3 folder c w
              = (inl (SystemExit 1),
                 {| file := None; out := out w ++ [(NoActiveUpload, Red)];
                    calls := calls w |})).
  { destruct c; try discriminate Hc; simpl;
      [unfold upload | unfold abort | unfold finalize];
      now apply check_multipart_absent. }
  rewrite E. simpl. repeat split. discriminate.
Qed.

Lemma no_session_no_remote_call_witness :
  exit_status (fst (cli (fun _ _ => Returns PNone) (fun _ => None) Finalize no_file)) <> 0
  /\ calls (snd (cli (fun _ _ => Returns PNone) (fun _ => None) Finalize no_file)) = [].
Proof.
  apply (no_session_no_remote_call (fun _ _ => Returns PNone) (fun _ => None)
           Finalize no_file); reflexivity.
Defined.

(** ** init *)

Lemma init_replied s3 bucket key w resp :
  s3 (calls w) (CreateMultipartUpload bucket key "AES256") = Returns resp ->
  Py.serialisable resp = true ->
  init s3 bucket key w
  = (inr tt,
     {| file := Some (Document resp);
        out := out w ++ [(Started bucket key, Green)];
        calls := calls w ++ [CreateMultipartUpload bucket key "AES256"] |}).
Proof.
  intros Hs Hj. unfold init, bind, call, open_w, json_dumps, write, secho, ret.
  rewrite Hs. simpl. rewrite Hj. reflexivity.
Qed.

(** C9.  When the create call raises, [init] ends with that exception and
    [multipart.json] is as it was before: absent if it was absent. *)
Theorem init_failure_writes_nothing s3 bucket key w what :
  s3 (calls w) (CreateMultipartUpload bucket key "AES256") = Raises what ->
  fst (init s3 bucket key w) = inl (ClientError what)
  /\ file (snd (init s3 bucket key w)) = file w
  /\ out (snd (init s3 bucket key w)) = out w.
Proof.
  intros Hs. unfold init, bind, call. rewrite Hs. simpl. repeat split.
Qed.

Lemma init_failure_writes_nothing_witness :
  file (snd (init (fun _ _ => Raises "AccessDenied") "bucket1" "obj.bin" no_file)) = None.
Proof.
  apply (init_failure_writes_nothing (fun _ _ => Raises "AccessDenied")
           "bucket1" "obj.bin" no_file "AccessDenied" eq_refl).
Defined.

(** [init] run on top of the session U1 returns normally and the record now
    holds the session U2. *)
Lemma init_not_guarded : ~ init_guarded.
Proof.
  intros G.
  destruct (G (fun _ _ => Returns second_session) "bucket1" "other.bin"
              (holding first_session) (Document first_session) eq_refl)
    as [e [He _]].
  discriminate He.
Qed.

(** C5, as the code has it.  [init] has no guard: run while a record exists,
    with a create call that returns an answer [json.dumps] accepts, it
    returns normally and the record is replaced by the new answer. *)
Theorem init_overwrites s3 bucket key w c resp :
  file w = Some c ->
  s3 (calls w) (CreateMultipartUpload bucket key "AES256") = Returns resp ->
  Py.serialisable resp = true ->
  fst (init s3 bucket key w) = inr tt
  /\ file (snd (init s3 bucket key w)) = Some (Document resp).
Proof.
  intros _ Hs Hj. rewrite (init_replied _ _ _ _ _ Hs Hj). split; reflexivity.
Qed.

Lemma init_overwrites_witness :
  file (snd (init (fun _ _ => Returns second_session) "bucket1" "other.bin"
               (holding first_session)))
  = Some (Document second_session).
Proof.
  apply (init_overwrites (fun _ _ => Returns second_session) "bucket1" "other.bin"
           (holding first_session) (Document first_session) second_session);
    reflexivity.
Defined.

(** ** abort and finalize *)

Section Terminal.

Variable s3 : list request -> request -> reply.
Variables (w : world) (data bucket key upload_id : pyval).
Hypothesis Hfile : file w = Some (Document data).
Hypothesis Hbucket : Py.getitem data "Bucket" = inr bucket.
Hypothesis Hkey : Py.getitem data "Key" = inr key.
Hypothesis Hid : Py.getitem data "UploadId" = inr upload_id.

Lemma abort_confirmed resp status :
  s3 (calls w) (AbortMultipartUpload bucket key upload_id) = Returns resp ->
  status_code resp = inr status ->
  Py.eq_int status 204 = true ->
  abort s3 w
  = (inr tt,
     {| file := None;
        out := out w ++ [(Aborted bucket key, Yellow)];
        calls := calls w ++ [AbortMultipartUpload bucket key upload_id] |}).
Proof.
  intros Hs Hc Hq. unfold abort. rewrite (check_multipart_present _ _ _ Hfile).
  unfold bind at 1. unfold load. rewrite Hfile.
  unfold bind at 1. rewrite (session_fields_ok _ _ _ _ _ Hbucket Hkey Hid).
  unfold bind, call, lift, ret, remove, secho. rewrite Hs, Hc. simpl.
  rewrite Hq. simpl. rewrite Hfile. reflexivity.
Qed.


Variable parts : pyval.
Hypothesis Hparts : Py.getitem data "Parts" = inr parts.

Let complete : request :=
  CompleteMultipartUpload bucket key upload_id (PDict [("Parts", parts)]).

Lemma finalize_confirmed resp status :
  s3 (calls w) complete = Returns resp ->
  status_code resp = inr status ->
  Py.eq_int status 200 = true ->
  finalize s3 w
  = (inr tt,
     {| file := None;
        out := out w ++ [(Finalized bucket key, Green)];
        calls := calls w ++ [complete] |}).
Proof.
  intros Hs Hc Hq. unfold finalize. rewrite (check_multipart_present _ _ _ Hfile).
  unfold bind at 1. unfold load. rewrite Hfile.
  unfold bind at 1. rewrite (session_fields_ok _ _ _ _ _ Hbucket Hkey Hid).
  unfold bind, call, lift, ret, remove, secho. rewrite Hparts.
  unfold complete in Hs. rewrite Hs, Hc. simpl.
  rewrite Hq. simpl. rewrite Hfile. reflexivity.
Qed.


End Terminal.

Lemma http_status_code resp n :
  http_status resp = Some n -> status_code resp = inr (PInt n).
Proof.
  unfold http_status, status_code, Py.getitem.
  destruct resp as [| | | | | fields |]; try discriminate.
  destruct (Py.lookup "ResponseMetadata" fields) as [[| | | | | meta |] |];
    try discriminate.
  destruct (Py.lookup "HTTPStatusCode" meta) as [[| | m | | | |] |]; try discriminate.
  now intros [= ->].
Qed.




(** C2.  A refused abort or finalize (here: status 500) echoes the answer and
    returns; the process ends with exit status 0, where every other failure
    the program reports goes through [error] and exits with 1. *)
Theorem refused_exit_status_is_zero folder :
  exit_status (fst (cli (fun _ _ => Returns (http 500)) folder Abort
                      (holding recorded_session))) = 0
  /\ exit_status (fst (cli (fun _ _ => Returns (http 500)) folder Finalize
                         (holding recorded_session))) = 0
  /\ out (snd (cli (fun _ _ => Returns (http 500)) folder Abort
                 (holding recorded_session)))
     = [(BadHTTPResponse, Red); (Dump (http 500), Red)].
Proof. repeat split. Qed.

(** ** finalize before any upload *)

(** C10.  A record without a [Parts] field makes finalize end in a [KeyError]
    raised while the record is read: the storage client is not called and the
    world is left as it was.  That is the record [init] writes whenever the
    answer of the create call has no such field, since [init] stores the
    answer as it is. *)
Theorem finalize_needs_parts s3 fields :
  Py.lookup "Parts" fields = None ->
  (forall w,
      file w = Some (Document (PDict fields)) ->
      exists k, finalize s3 w = (inl (KeyError k), w))
  /\
  (forall bucket key w,
      s3 (calls w) (CreateMultipartUpload bucket key "AES256") = Returns (PDict fields) ->
      Py.serialisable (PDict fields) = true ->
      file (snd (init s3 bucket key w)) = Some (Document (PDict fields))).
Proof.
  intros Hp. split.
  - intros w Hf. unfold finalize. rewrite (check_multipart_present _ _ _ Hf).
    unfold bind at 1. unfold load. rewrite Hf.
    unfold session_fields, bind, lift, ret, raise, Py.getitem.
    destruct (Py.lookup "Bucket" fields); [| now exists "Bucket"].
    destruct (Py.lookup "Key" fields); [| now exists "Key"].
    destruct (Py.lookup "UploadId" fields); [| now exists "UploadId"].
    rewrite Hp. now exists "Parts".
  - intros bucket key w Hs Hj. now rewrite (init_replied _ _ _ _ _ Hs Hj).
Qed.

Lemma finalize_needs_parts_witness :
  exists k, finalize (fun _ _ => Returns (http 200)) (holding first_session)
            = (inl (KeyError k), holding first_session).
Proof.
  apply (proj1 (finalize_needs_parts (fun _ _ => Returns (http 200))
                  [("Bucket", PStr "bucket1"); ("Key", PStr "obj.bin");
                   ("UploadId", PStr "U1")] eq_refl)).
  reflexivity.
Defined.

(** ** The entity tag that is recorded *)

Lemma substring_all (s : string) : substring 0 (String.length s) s = s.
Proof. induction s as [| c s IH]; simpl; [reflexivity | now rewrite IH]. Qed.

Lemma substring_front (s t : string) :
  substring 0 (String.length s) (s ++ t) = s.
Proof. induction s as [| c s IH]; simpl; [now destruct t | now rewrite IH]. Qed.

Lemma length_append (s t : string) :
  String.length (s ++ t) = (String.length s + String.length t)%nat.
Proof. induction s as [| c s IH]; simpl; [reflexivity | now rewrite IH]. Qed.

(** On a tag wrapped in quotes, [[1:-1]] gives the tag. *)
Lemma slice_quoted (s : string) : Py.str_slice_1_m1 (quoted s) = s.
Proof.
  unfold Py.str_slice_1_m1, quoted. simpl.
  rewrite length_append. simpl.
  replace (String.length s + 1 - 1)%nat with (String.length s) by lia.
  apply substring_front.
Qed.

(** C8.  [[1:-1]] drops the first and the last character whatever they are:
    the tag [abc], answered without quotes, is recorded as [b]. *)
Theorem unquoted_etag_is_clipped :
  Py.slice_1_m1 (PStr "abc") = inr (PStr "b")
  /\ completed (snd (upload_one (fun _ _ => Returns (etag_reply "abc"))
                       (PStr "bucket1") (PStr "obj.bin") (PStr "U1") big01
                       (holding first_session)))
     = Some [part_entry (PStr "b") 1].
Proof. split; reflexivity. Qed.

(** ** Which entries are taken for parts *)

(** C4.  The pattern is matched at the start of the extension only:
    [notes.1a] is taken for a part, and the run ends in the [ValueError] of
    [int('1a')] once [big.01] has been sent. *)
Theorem trailing_junk_is_selected :
  map name (find_parts [notes1a; readme; big01]) = ["big.01"; "notes.1a"]
  /\ part_number notes1a = None
  /\ fst (upload (fun _ _ => Returns (etag_reply (quoted "e1")))
            (one_folder [notes1a; readme; big01]) "parts" true
            (holding first_session))
     = inl ValueError.
Proof. repeat split. Qed.

(** ** Progress recorded by upload *)

Lemma lookup_store (k : string) (v : pyval) fields :
  Py.lookup k (Py.store k v fields) = Some v.
Proof.
  induction fields as [| [k' v'] rest IH]; simpl.
  - now rewrite String.eqb_refl.
  - destruct (String.eqb k' k) eqn:E; simpl; now rewrite E.
Qed.

Lemma forallb_store (P : string * pyval -> bool) k v fields :
  (forall k', P (k', v) = true) ->
  forallb P fields = true ->
  forallb P (Py.store k v fields) = true.
Proof.
  intros Hv. induction fields as [| [k' v'] rest IH]; simpl; intros H.
  - now rewrite Hv.
  - apply andb_true_iff in H as [H1 H2].
    destruct (String.eqb k' k); simpl.
    + now rewrite Hv, H2.
    + now rewrite H1, IH.
Qed.

Lemma serialisable_lookup k v fields :
  Py.serialisable (PDict fields) = true ->
  Py.lookup k fields = Some v ->
  Py.serialisable v = true.
Proof.
  simpl. induction fields as [| [k' v'] rest IH]; simpl; intros H L.
  - discriminate.
  - apply andb_true_iff in H as [H1 H2].
    destruct (String.eqb k' k); [now inversion L; subst | now apply IH].
Qed.

Lemma recorded_serialisable fields old :
  Py.serialisable (PDict fields) = true ->
  recorded fields = Some old ->
  forallb Py.serialisable old = true.
Proof.
  unfold recorded. intros H R.
  destruct (Py.lookup "Parts" fields) as [v |] eqn:L.
  - destruct v; try discriminate. inversion R; subst.
    exact (serialisable_lookup _ _ _ H L).
  - now inversion R.
Qed.

Lemma recorded_get fields old :
  recorded fields = Some old ->
  Py.get (PDict fields) "Parts" (PList []) = inr (PList old).
Proof.
  unfold recorded, Py.get.
  destruct (Py.lookup "Parts" fields) as [v |].
  - destruct v; try discriminate. now intros [= ->].
  - now intros [= <-].
Qed.

Lemma recorded_store items fields :
  recorded (Py.store "Parts" (PList items) fields) = Some items.
Proof. unfold recorded. now rewrite lookup_store. Qed.

Lemma other_fields_store v fields :
  other_fields (Py.store "Parts" v fields) = other_fields fields.
Proof.
  unfold other_fields. induction fields as [| [k' v'] rest IH]; simpl.
  - reflexivity.
  - destruct (String.eqb k' "Parts") eqn:E; simpl; rewrite E; simpl.
    + reflexivity.
    + now rewrite IH.
Qed.

Lemma lookup_other_fields k fields :
  k <> "Parts" -> Py.lookup k (other_fields fields) = Py.lookup k fields.
Proof.
  intros Hk. unfold other_fields. induction fields as [| [k' v'] rest IH]; simpl.
  - reflexivity.
  - destruct (String.eqb k' "Parts") eqn:E; simpl.
    + apply String.eqb_eq in E. subst k'.
      destruct (String.eqb_spec "Parts" k) as [<- |]; [contradiction | exact IH].
    + destruct (String.eqb k' k); [reflexivity | exact IH].
Qed.

Lemma other_fields_lookup k fields fields' :
  other_fields fields' = other_fields fields -> k <> "Parts" ->
  Py.lookup k fields' = Py.lookup k fields.
Proof.
  intros Ho Hk.
  now rewrite <- (lookup_other_fields k fields'), Ho, lookup_other_fields.
Qed.

Lemma recorded_lookup fields items :
  recorded fields = Some items -> items <> [] ->
  Py.lookup "Parts" fields = Some (PList items).
Proof.
  unfold recorded. destruct (Py.lookup "Parts" fields) as [v |].
  - destruct v; try discriminate. now intros [= ->].
  - intros [= <-] H. contradiction.
Qed.

Section Progress.

Variable s3 : list request -> request -> reply.
Variables bucket key upload_id : pyval.

(** One successful turn of the loop appends one entry to the record. *)
Lemma upload_one_records part number data resp tag w fields old :
  part_number part = Some number ->
  body part = Some data ->
  s3 (calls w) (UploadPart bucket key upload_id number data) = Returns resp ->
  Py.getitem resp "ETag" = inr (PStr tag) ->
  file w = Some (Document (PDict fields)) ->
  Py.serialisable (PDict fields) = true ->
  recorded fields = Some old ->
  upload_one s3 bucket key upload_id part w
  = (inr tt,
     {| file := Some (Document (PDict (Py.store "Parts"
                  (PList (old ++ [part_entry (PStr (Py.str_slice_1_m1 tag)) number]))
                  fields)));
        out := out w;
        calls := calls w ++ [UploadPart bucket key upload_id number data] |}).
Proof.
  intros Hn Hb Hs Ht Hf Hj Hr.
  unfold upload_one. rewrite Hn, Hb.
  unfold bind at 1. unfold lift at 1. unfold ret at 1.
  unfold bind at 1. unfold lift at 1. unfold ret at 1.
  unfold bind at 1. unfold call. rewrite Hs.
  unfold bind at 1. rewrite Ht. unfold lift at 1. unfold ret at 1.
  unfold bind at 1. simpl Py.slice_1_m1. unfold lift at 1. unfold ret at 1.
  unfold bind at 1. unfold load. simpl file. rewrite Hf.
  unfold bind at 1. rewrite (recorded_get _ _ Hr). unfold lift at 1. unfold ret at 1.
  unfold bind, lift, ret, open_w, json_dump, write, Py.add_list, Py.setitem.
  simpl out. simpl calls.
  assert (Hser : Py.serialisable
                (PDict (Py.store "Parts"
                   (PList (old ++ [PDict [("ETag", PStr (Py.str_slice_1_m1 tag));
                                          ("PartNumber", PInt number)]]))
                   fields)) = true).
  { simpl. apply forallb_store.
    - intros k'. simpl. rewrite forallb_app.
      now rewrite (recorded_serialisable _ _ Hj Hr).
    - exact Hj. }
  rewrite Hser. reflexivity.
Qed.

Lemma request_for_usable part number data :
  part_number part = Some number ->
  body part = Some data ->
  request_for bucket key upload_id part = UploadPart bucket key upload_id number data.
Proof. intros Hn Hb. unfold request_for, number_of, content_of. now rewrite Hn, Hb. Qed.

Lemma entries_for_length parts :
  forall tags history,
    answered_with s3 bucket key upload_id history parts tags ->
    List.length (entries_for parts tags) = List.length parts.
Proof.
  induction parts as [| part parts IH]; intros [| tag tags] history H;
    simpl in *; try contradiction; [reflexivity |].
  destruct H as [_ [_ [_ H]]]. now rewrite (IH _ _ H).
Qed.

(** The loop on parts whose transfers all succeed: it returns, one call has
    been made per part, and the record shows what it showed before followed
    by the entries of these parts; its other bindings are as they were. *)
Lemma upload_loop_trace parts :
  forall tags w fields old,
    file w = Some (Document (PDict fields)) ->
    Py.serialisable (PDict fields) = true ->
    recorded fields = Some old ->
    answered_with s3 bucket key upload_id (calls w) parts tags ->
    exists fields',
      for_each parts (upload_one s3 bucket key upload_id) w
      = (inr tt,
         {| file := Some (Document (PDict fields'));
            out := out w;
            calls := calls w ++ map (request_for bucket key upload_id) parts |})
      /\ Py.serialisable (PDict fields') = true
      /\ recorded fields' = Some (old ++ entries_for parts tags)
      /\ other_fields fields' = other_fields fields.
Proof.
  induction parts as [| part parts IH]; intros [| tag tags] w fields old Hf Hj Hr Ha;
    simpl in Ha; try contradiction.
  - exists fields. simpl. unfold ret. rewrite !app_nil_r.
    split; [| split; [exact Hj | split; [exact Hr | reflexivity]]].
    destruct w as [f o c]. simpl in *. now subst f.
  - destruct Ha as [Hn [Hb [[resp [Hs Ht]] Hrest]]].
    destruct (part_number part) as [number |] eqn:En; [| contradiction].
    destruct (body part) as [data |] eqn:Eb; [| contradiction].
    rewrite (request_for_usable part number data En Eb) in Hs, Hrest.
    pose proof (upload_one_records part number data resp tag w fields old
                  En Eb Hs Ht Hf Hj Hr) as Step.
    set (entry := part_entry (PStr (Py.str_slice_1_m1 tag)) number) in *.
    set (fields1 := Py.store "Parts" (PList (old ++ [entry])) fields) in *.
    set (w1 := {| file := Some (Document (PDict fields1)); out := out w;
                  calls := calls w ++ [UploadPart bucket key upload_id number data] |})
      in *.
    assert (Hj1 : Py.serialisable (PDict fields1) = true).
    { simpl. apply forallb_store.
      - intros k'. simpl. rewrite forallb_app.
        now rewrite (recorded_serialisable _ _ Hj Hr).
      - exact Hj. }
    destruct (IH tags w1 fields1 (old ++ [entry]) eq_refl Hj1 (recorded_store _ _) Hrest)
      as [fields' [Run [Hj' [Hr' Ho]]]].
    exists fields'. simpl for_each.
    rewrite (bind_ok _ _ _ _ _ Step), Run. repeat split.
    + simpl. rewrite (request_for_usable part number data En Eb).
      now rewrite <- app_assoc.
    + exact Hj'.
    + rewrite Hr'. simpl. unfold number_of. rewrite En. now rewrite <- app_assoc.
    + rewrite Ho. apply other_fields_store.
Qed.

End Progress.

Lemma echo_names parts w :
  for_each parts (fun part => secho (PartName (name part)) Blue) w
  = (inr tt,
     {| file := file w;
        out := out w ++ map (fun part => (PartName (name part), Blue)) parts;
        calls := calls w |}).
Proof.
  revert w. induction parts as [| part parts IH]; intros w; simpl.
  - unfold ret. rewrite app_nil_r. now destruct w.
  - unfold bind, secho. rewrite IH. simpl. now rewrite <- app_assoc.
Qed.

(** What [upload] does before the loop, when nothing stops it: the parts are
    listed, and the record and the trace of calls are as they were. *)
Lemma upload_plan_world folder src entries w data bucket key upload_id :
  file w = Some (Document data) ->
  Py.getitem data "Bucket" = inr bucket ->
  Py.getitem data "Key" = inr key ->
  Py.getitem data "UploadId" = inr upload_id ->
  folder src = Some entries ->
  find_parts entries <> [] ->
  upload_plan folder src true w
  = (inr (bucket, key, upload_id, find_parts entries),
     {| file := file w;
        out := out w ++ listing src (find_parts entries);
        calls := calls w |}).
Proof.
  intros Hf Hb Hk Hu Hd Hne. unfold upload_plan.
  unfold bind at 1. unfold load. rewrite Hf.
  unfold bind at 1. rewrite (session_fields_ok _ _ _ _ _ Hb Hk Hu).
  rewrite Hd. destruct (find_parts entries) as [| part parts] eqn:E; [contradiction |].
  unfold when, bind, ret, secho. simpl negb. cbv iota.
  rewrite echo_names. unfold listing. simpl. now rewrite Hf, <- app_assoc.
Qed.

Ltac answered :=
  vm_compute;
  repeat match goal with
         | |- _ /\ _ => split
         | |- _ -> False => let H := fresh in intro H; discriminate H
         | |- exists _, _ => eexists
         | |- _ = _ => reflexivity
         | |- True => exact I
         end.




(** ** Digits *)

Lemma digit_range c :
  Py.is_digit c = true -> 0 <= Py.digit_value c <= 9.
Proof.
  unfold Py.is_digit, Py.digit_value. intros H.
  apply andb_true_iff in H as [H1 H2].
  apply Nat.leb_le in H1. apply Nat.leb_le in H2. lia.
Qed.

Lemma digit_not_space c : Py.is_digit c = true -> Py.is_space c = false.
Proof.
  unfold Py.is_digit, Py.is_space. intros H.
  apply andb_true_iff in H as [H1 H2]. apply Nat.leb_le in H1.
  apply orb_false_iff. split.
  - apply andb_false_iff. right. apply Nat.leb_gt. lia.
  - apply Nat.eqb_neq. lia.
Qed.

Lemma digit_not (c d : ascii) :
  Py.is_digit c = true -> Py.is_digit d = false -> Ascii.eqb c d = false.
Proof.
  intros Hc Hd. destruct (Ascii.eqb_spec c d) as [-> |]; [congruence | reflexivity].
Qed.

Lemma lstrip_digits c rest :
  Py.is_digit c = true -> Py.lstrip (String c rest) = String c rest.
Proof. intros H. simpl. now rewrite (digit_not_space _ H). Qed.

Lemma rstrip_digits s : all_digits s = true -> Py.rstrip s = s.
Proof.
  induction s as [| c rest IH]; simpl; intros H; [reflexivity |].
  apply andb_true_iff in H as [Hc Hr]. rewrite (IH Hr).
  destruct rest; [now rewrite (digit_not_space _ Hc) | reflexivity].
Qed.

Lemma digits_value_digits s :
  all_digits s = true ->
  forall acc, Py.digits_value s acc true = Some (decimal_from acc s).
Proof.
  induction s as [| c rest IH]; simpl; intros H acc; [reflexivity |].
  apply andb_true_iff in H as [Hc Hr]. rewrite Hc. now apply IH.
Qed.

(** [int] on a text of digits. *)
Lemma int_digits s :
  s <> EmptyString -> all_digits s = true -> Py.int s = Some (decimal s).
Proof.
  intros Hne H. destruct s as [| c rest]; [contradiction |].
  unfold Py.int. pose proof H as H'. simpl in H'.
  apply andb_true_iff in H' as [Hc Hr].
  rewrite (lstrip_digits _ _ Hc), (rstrip_digits _ H).
  rewrite (digit_not c "+" Hc eq_refl), (digit_not c "-" Hc eq_refl).
  simpl. rewrite Hc. now apply digits_value_digits.
Qed.

Lemma decimal_from_split s :
  forall acc,
    decimal_from acc s = acc * 10 ^ Z.of_nat (String.length s) + decimal s.
Proof.
  unfold decimal. induction s as [| c rest IH]; intros acc.
  - simpl. lia.
  - cbn [decimal_from String.length]. rewrite IH, (IH (10 * 0 + _)).
    rewrite Nat2Z.inj_succ, Z.pow_succ_r by lia. ring.
Qed.

Lemma decimal_bound s :
  all_digits s = true -> 0 <= decimal s < 10 ^ Z.of_nat (String.length s).
Proof.
  induction s as [| c rest IH]; intros H.
  - cbn. lia.
  - simpl in H. apply andb_true_iff in H as [Hc Hr].
    specialize (IH Hr). pose proof (digit_range _ Hc) as Hd.
    unfold decimal. cbn [decimal_from String.length].
    rewrite decimal_from_split, Nat2Z.inj_succ, Z.pow_succ_r by lia.
    nia.
Qed.

(** Texts of digits of one length compare as the numbers they denote. *)
Lemma compare_digits a :
  forall b,
    String.length a = String.length b ->
    all_digits a = true -> all_digits b = true ->
    String.compare a b = (decimal a ?= decimal b).
Proof.
  induction a as [| c a IH]; intros [| d b] Hl Ha Hb; try discriminate.
  - reflexivity.
  - simpl in Hl, Ha, Hb. injection Hl as Hl.
    apply andb_true_iff in Ha as [Hc Ha]. apply andb_true_iff in Hb as [Hd Hb].
    pose proof (decimal_bound _ Ha) as Ba. pose proof (decimal_bound _ Hb) as Bb.
    pose proof (digit_range _ Hc) as Rc. pose proof (digit_range _ Hd) as Rd.
    unfold decimal. cbn [decimal_from String.compare].
    rewrite (decimal_from_split a), (decimal_from_split b), <- Hl.
    rewrite <- Hl in Bb.
    set (P := 10 ^ Z.of_nat (String.length a)) in *.
    unfold Ascii.compare.
    assert (Vc : Py.digit_value c = Z.of_N (N_of_ascii c) - 48)
      by (unfold Py.digit_value, nat_of_ascii; lia).
    assert (Vd : Py.digit_value d = Z.of_N (N_of_ascii d) - 48)
      by (unfold Py.digit_value, nat_of_ascii; lia).
    destruct (N.compare_spec (N_of_ascii c) (N_of_ascii d)) as [E | E | E].
    + rewrite (IH b Hl Ha Hb).
      replace (Py.digit_value d) with (Py.digit_value c) by lia.
      unfold decimal.
      destruct (Z.compare_spec (decimal_from 0 a) (decimal_from 0 b)) as [E2 | E2 | E2];
        symmetry;
        [apply Z.compare_eq_iff | apply Z.compare_lt_iff | apply Z.compare_gt_iff];
        lia.
    + symmetry. apply Z.compare_lt_iff.
      assert ((Py.digit_value c + 1) * P <= Py.digit_value d * P)
        by (apply Z.mul_le_mono_nonneg_r; lia).
      unfold decimal in *. lia.
    + symmetry. apply Z.compare_gt_iff.
      assert ((Py.digit_value d + 1) * P <= Py.digit_value c * P)
        by (apply Z.mul_le_mono_nonneg_r; lia).
      unfold decimal in *. lia.
Qed.

(** ** Names of the form [stem.ext] *)

Lemma digits_no_dot s : all_digits s = true -> Path.rfind "." s = None.
Proof.
  induction s as [| c rest IH]; simpl; intros H; [reflexivity |].
  apply andb_true_iff in H as [Hc Hr]. rewrite (IH Hr).
  now rewrite (digit_not c "." Hc eq_refl).
Qed.

Lemma rfind_last_dot stem ext :
  Path.rfind "." ext = None ->
  Path.rfind "." (stem ++ String "." ext) = Some (String.length stem).
Proof.
  intros H. induction stem as [| c stem IH]; simpl.
  - now rewrite H.
  - now rewrite IH.
Qed.

Lemma substring_skip s t n :
  substring (String.length s) n (s ++ t) = substring 0 n t.
Proof. induction s as [| c s IH]; simpl; [reflexivity | exact IH]. Qed.

(** [Path.suffix] of a part file name is the dot and the extension. *)
Lemma suffix_of_part stem ext :
  stem <> EmptyString -> ext <> EmptyString -> all_digits ext = true ->
  Path.suffix (stem ++ String "." ext) = String "." ext.
Proof.
  intros Hs He Hd. unfold Path.suffix.
  rewrite (rfind_last_dot _ _ (digits_no_dot _ Hd)), length_append.
  cbn [String.length].
  assert (L1 : (0 < String.length stem)%nat) by (destruct stem; [contradiction | simpl; lia]).
  assert (L2 : (0 < String.length ext)%nat) by (destruct ext; [contradiction | simpl; lia]).
  replace ((0 <? String.length stem)%nat) with true by (symmetry; apply Nat.ltb_lt; lia).
  replace ((String.length stem <? String.length stem + S (String.length ext) - 1)%nat)
    with true by (symmetry; apply Nat.ltb_lt; lia).
  simpl andb. cbv iota. rewrite substring_skip.
  replace (String.length stem + S (String.length ext) - String.length stem)%nat
    with (String.length (String "." ext)) by (simpl; lia).
  apply substring_all.
Qed.

Section PartNames.

Variables (stem : string) (width : nat).
Hypothesis Hstem : stem <> EmptyString.
Hypothesis Hwidth : (0 < width)%nat.

Lemma padded_nonempty ext file : padded stem width ext file -> ext <> EmptyString.
Proof. intros [_ [_ L]] ->. simpl in L. lia. Qed.

Lemma padded_suffix ext part :
  padded stem width ext (name part) -> Path.suffix (name part) = String "." ext.
Proof.
  intros H. pose proof (padded_nonempty _ _ H) as Hne.
  destruct H as [-> [Hd _]]. now apply suffix_of_part.
Qed.

(** Part files are selected. *)
Lemma padded_is_part ext part :
  padded stem width ext (name part) -> is_part part = true.
Proof.
  intros H. unfold is_part. rewrite (padded_suffix _ _ H).
  pose proof (padded_nonempty _ _ H) as Hne. destruct H as [_ [Hd _]].
  destruct ext as [| c rest]; [contradiction |].
  simpl in Hd. apply andb_true_iff in Hd as [Hc _].
  simpl. now rewrite Hc.
Qed.

(** Their number is their extension read in base 10. *)
Lemma padded_number ext part :
  padded stem width ext (name part) -> part_number part = Some (decimal ext).
Proof.
  intros H. unfold part_number. rewrite (padded_suffix _ _ H).
  pose proof (padded_nonempty _ _ H) as Hne. destruct H as [_ [Hd _]].
  cbn [String.length substring]. rewrite ?Nat.sub_0_r, ?Nat.sub_succ. rewrite ?Nat.sub_0_r, substring_all.
  now apply int_digits.
Qed.

Lemma compare_same_prefix (p a b : string) :
  String.compare (p ++ a) (p ++ b) = String.compare a b.
Proof.
  induction p as [| c p IH]; simpl; [reflexivity |].
  unfold Ascii.compare. now rewrite N.compare_refl.
Qed.

(** Two part files compare by name as their numbers do. *)
Lemma padded_compare ext1 ext2 part1 part2 :
  padded stem width ext1 (name part1) ->
  padded stem width ext2 (name part2) ->
  String.compare (name part1) (name part2) = (decimal ext1 ?= decimal ext2).
Proof.
  intros [E1 [D1 L1]] [E2 [D2 L2]]. rewrite E1, E2, compare_same_prefix.
  cbn [String.compare]. unfold Ascii.compare. rewrite N.compare_refl.
  apply compare_digits; congruence.
Qed.

Lemma padded_ltb part1 part2 n1 n2 :
  numbered stem width part1 n1 ->
  numbered stem width part2 n2 ->
  String.ltb (name part1) (name part2) = (n1 <? n2).
Proof.
  intros [ext1 [P1 ->]] [ext2 [P2 ->]]. unfold String.ltb, Z.ltb.
  now rewrite (padded_compare _ _ _ _ P1 P2).
Qed.

Lemma numbered_number part n :
  numbered stem width part n -> part_number part = Some n /\ number_of part = n.
Proof.
  intros [ext [P ->]]. unfold number_of. rewrite (padded_number _ _ P). now split.
Qed.

(** Part files with the same number have the same name. *)
Lemma numbered_inj part1 part2 n :
  numbered stem width part1 n -> numbered stem width part2 n ->
  name part1 = name part2.
Proof.
  intros [ext1 [P1 E1]] [ext2 [P2 E2]].
  pose proof (padded_compare _ _ _ _ P1 P2) as C.
  rewrite <- E1, <- E2, Z.compare_refl in C.
  now apply String.compare_eq_iff.
Qed.

End PartNames.

(** ** [sorted] *)

Lemma insert_perm x l : Permutation (x :: l) (insert x l).
Proof.
  induction l as [| y rest IH]; simpl; [apply Permutation_refl |].
  destruct (String.ltb (name y) (name x)); [| apply Permutation_refl].
  apply perm_trans with (y :: x :: rest); [apply perm_swap | now apply perm_skip].
Qed.

Lemma sorted_perm l : Permutation l (sorted l).
Proof.
  induction l as [| x rest IH]; simpl; [apply perm_nil |].
  apply perm_trans with (x :: sorted rest); [now apply perm_skip | apply insert_perm].
Qed.

Lemma filter_perm (f : dirent -> bool) l l' :
  Permutation l l' -> Permutation (filter f l) (filter f l').
Proof.
  induction 1 as [| x l l' _ IH | x y l | l l' l'' _ IH1 _ IH2]; simpl.
  - apply perm_nil.
  - destruct (f x); [now apply perm_skip | exact IH].
  - destruct (f x), (f y); try apply Permutation_refl. apply perm_swap.
  - now apply perm_trans with (filter f l').
Qed.

Lemma filter_keeps_all (f : dirent -> bool) l :
  Forall (fun x => f x = true) l -> filter f l = l.
Proof. induction 1 as [| x l Hx _ IH]; simpl; [reflexivity | now rewrite Hx, IH]. Qed.

Lemma filter_keeps_none (f : dirent -> bool) l :
  Forall (fun x => f x = false) l -> filter f l = [].
Proof. induction 1 as [| x l Hx _ IH]; simpl; [reflexivity | now rewrite Hx]. Qed.

Section SortedByKey.

Variable key : dirent -> Z.

Lemma insert_sorted x l :
  names_follow_keys key (x :: l) ->
  StronglySorted (below key) l -> StronglySorted (below key) (insert x l).
Proof.
  intros Hk Hs. induction Hs as [| y rest Hs IH Hy]; simpl.
  - repeat constructor.
  - assert (Hyx : String.ltb (name y) (name x) = (key y <? key x))
      by (apply Hk; simpl; auto).
    rewrite Hyx. destruct (key y <? key x) eqn:E.
    + apply Z.ltb_lt in E. constructor.
      * apply IH. intros a b Ha Hb. apply Hk; simpl in *; intuition.
      * apply (Permutation_Forall (insert_perm x rest)).
        constructor; [unfold below; lia | exact Hy].
    + apply Z.ltb_ge in E. constructor; [now constructor |].
      constructor; [exact E |].
      apply Forall_impl with (P := below key y); [| exact Hy].
      unfold below. intros; lia.
Qed.

Lemma sorted_sorted l : names_follow_keys key l -> StronglySorted (below key) (sorted l).
Proof.
  induction l as [| x rest IH]; simpl; intros Hk; [constructor |].
  apply insert_sorted.
  - intros a b Ha Hb. apply Hk.
    + destruct Ha as [<- | Ha]; [now left | right].
      exact (Permutation_in _ (Permutation_sym (sorted_perm rest)) Ha).
    + destruct Hb as [<- | Hb]; [now left | right].
      exact (Permutation_in _ (Permutation_sym (sorted_perm rest)) Hb).
  - apply IH. intros a b Ha Hb. apply Hk; now right.
Qed.

Lemma sorted_strictly l :
  StronglySorted (below key) l -> NoDup (map key l) -> StronglySorted (strictly_below key) l.
Proof.
  induction 1 as [| x rest Hs IH Hx]; simpl; intros Hn; [constructor |].
  inversion Hn as [| ? ? Hnotin Hn']; subst. constructor; [now apply IH |].
  apply Forall_forall. intros y Hy.
  pose proof (proj1 (Forall_forall _ _) Hx y Hy) as Hle.
  assert (key x <> key y).
  { intros E. apply Hnotin. rewrite E. now apply in_map. }
  unfold below, strictly_below in *. lia.
Qed.

Lemma strictly_sorted_keys l :
  StronglySorted (strictly_below key) l -> StronglySorted Z.lt (map key l).
Proof.
  induction 1 as [| x rest Hs IH Hx]; simpl; constructor; [exact IH |].
  apply Forall_forall. intros k Hk. apply in_map_iff in Hk as [y [<- Hy]].
  exact (proj1 (Forall_forall _ _) Hx y Hy).
Qed.

Lemma distinct_keys l :
  (forall x y, In x l -> In y l -> key x = key y -> name x = name y) ->
  NoDup (map name l) -> NoDup (map key l).
Proof.
  induction l as [| x rest IH]; simpl; intros Hinj Hn; [constructor |].
  inversion Hn as [| ? ? Hnotin Hn']; subst. constructor.
  - intros Hin. apply in_map_iff in Hin as [y [E Hy]].
    apply Hnotin. rewrite <- (Hinj y x); auto. now apply in_map.
  - apply IH; auto.
Qed.

End SortedByKey.

(** ** The parts of a folder, in order *)

(** C3 as stated fails when the names before the extensions differ: [a.02]
    sorts before [b.01], so the parts come out numbered 2, 1. *)
Lemma other_stems_break_the_order : ~ resolves_in_numeric_order.
Proof.
  intros H.
  destruct (H 2%nat [b01; a02] [b01; a02] []) as [numbers [Hn [_ Hs]]].
  - lia.
  - now rewrite app_nil_r.
  - repeat constructor; simpl; intuition discriminate.
  - repeat constructor.
    + exists "b", "01". repeat split.
    + exists "a", "02". repeat split.
  - constructor.
  - destruct numbers as [| n1 [| n2 [| n3 rest]]]; try discriminate Hn.
    injection Hn as <- <-.
    apply StronglySorted_inv in Hs as [_ Hs].
    apply Forall_inv in Hs. vm_compute in Hs. discriminate Hs.
Qed.

(** C3, as the code has it.  [sorted] orders the entries by their whole
    names.  In a folder whose [N] part files share one non-empty stem and
    carry extensions of one width, and where no other entry has an extension
    that begins with a digit, the parts found are exactly those [N] files, in
    strictly ascending order of their numbers, and the number of each is its
    extension read in base 10. *)
Theorem parts_of_one_stem_in_order stem width entries parts others :
  stem <> EmptyString ->
  (0 < width)%nat ->
  Permutation entries (parts ++ others) ->
  NoDup (map name parts) ->
  Forall (fun part => exists ext, padded stem width ext (name part)) parts ->
  Forall (fun other => is_part other = false) others ->
  Permutation (find_parts entries) parts
  /\ List.length (find_parts entries) = List.length parts
  /\ exists numbers,
      map part_number (find_parts entries) = map Some numbers
      /\ StronglySorted Z.lt numbers
      /\ Forall2 (numbered stem width) (find_parts entries) numbers.
Proof.
  intros Hstem Hwidth Hperm Hnodup Hparts Hothers.
  assert (Hsel : filter is_part (parts ++ others) = parts).
  { rewrite filter_app, (filter_keeps_none _ _ Hothers), app_nil_r.
    apply filter_keeps_all. apply Forall_impl with (2 := Hparts).
    intros part [ext P]. exact (padded_is_part stem width Hstem Hwidth ext part P). }
  assert (Hfound : Permutation (find_parts entries) parts).
  { unfold find_parts. apply perm_trans with (filter is_part entries).
    - apply Permutation_sym, sorted_perm.
    - rewrite <- Hsel. now apply filter_perm. }
  assert (Hnum : forall part, In part parts -> numbered stem width part (number_of part)).
  { intros part Hin.
    destruct (proj1 (Forall_forall _ _) Hparts part Hin) as [ext P].
    exists ext. split; [exact P |].
    unfold number_of. now rewrite (padded_number stem width Hstem Hwidth ext part P). }
  assert (Hnum' : forall part, In part (find_parts entries) ->
                               numbered stem width part (number_of part)).
  { intros part Hin. apply Hnum. exact (Permutation_in _ Hfound Hin). }
  assert (Hfilter : forall part, In part (filter is_part entries) -> In part parts).
  { intros part Hin. apply (Permutation_in _ Hfound).
    exact (Permutation_in _ (sorted_perm _) Hin). }
  split; [exact Hfound |]. split; [now apply Permutation_length |].
  exists (map number_of (find_parts entries)). repeat split.
  - rewrite map_map. apply map_ext_in. intros part Hin.
    exact (proj1 (numbered_number stem width Hstem Hwidth _ _ (Hnum' part Hin))).
  - apply strictly_sorted_keys, sorted_strictly.
    + unfold find_parts. apply sorted_sorted. intros x y Hx Hy.
      apply (padded_ltb stem width); apply Hnum; now apply Hfilter.
    + apply distinct_keys.
      * intros x y Hx Hy E. apply (numbered_inj stem width x y (number_of x)).
        -- now apply Hnum'.
        -- rewrite E. now apply Hnum'.
      * apply (Permutation_NoDup (Permutation_sym (Permutation_map name Hfound))).
        exact Hnodup.
  - assert (G : forall l,
               (forall part, In part l -> numbered stem width part (number_of part)) ->
               Forall2 (numbered stem width) l (map number_of l)).
    { induction l as [| part rest IH]; simpl; intros Hl; constructor.
      - apply Hl. now left.
      - apply IH. intros p Hp. apply Hl. now right. }
    apply G, Hnum'.
Qed.

Lemma parts_of_one_stem_in_order_witness :
  Permutation (find_parts [big02; readme; big01]) [big01; big02]
  /\ List.length (find_parts [big02; readme; big01]) = 2%nat
  /\ exists numbers,
      map part_number (find_parts [big02; readme; big01]) = map Some numbers
      /\ StronglySorted Z.lt numbers
      /\ Forall2 (numbered "big" 2) (find_parts [big02; readme; big01]) numbers.
Proof.
  apply (parts_of_one_stem_in_order "big" 2 [big02; readme; big01]
           [big01; big02] [readme]).
  - discriminate.
  - lia.
  - apply perm_trans with [big02; big01; readme].
    + apply perm_skip, perm_swap.
    + apply perm_swap.
  - repeat constructor; simpl; intuition discriminate.
  - repeat constructor; [exists "01" | exists "02"]; repeat split.
  - repeat constructor.
Defined.

(** * Further properties of the commands *)

(** ** upload: what stops it before any transfer *)

Section UploadStops.

Variable s3 : list request -> request -> reply.
Variable folder : string -> option (list dirent).
Variables (w : world) (data bucket key upload_id : pyval) (src : string).
Hypothesis Hfile : file w = Some (Document data).
Hypothesis Hbucket : Py.getitem data "Bucket" = inr bucket.
Hypothesis Hkey : Py.getitem data "Key" = inr key.
Hypothesis Hid : Py.getitem data "UploadId" = inr upload_id.

Lemma upload_raises_in_plan proceed e w' :
  upload_plan folder src proceed w = (inl e, w') ->
  upload s3 folder src proceed w = (inl e, w').
Proof.
  intros Plan. unfold upload. rewrite (check_multipart_present _ _ _ Hfile).
  now rewrite (bind_raise _ _ _ _ _ Plan).
Qed.

(** X1.  Lines 93-94.  A source path that is not a directory: one message, exit
    status 1, and neither the record nor the storage client is touched. *)
Theorem upload_not_a_folder proceed :
  folder src = None ->
  upload s3 folder src proceed w
  = (inl (SystemExit 1),
     {| file := file w; out := out w ++ [(PassFolder, Red)]; calls := calls w |}).
Proof.
  intros Hd. apply upload_raises_in_plan. unfold upload_plan.
  unfold bind at 1. unfold load. rewrite Hfile.
  unfold bind at 1. rewrite (session_fields_ok _ _ _ _ _ Hbucket Hkey Hid).
  rewrite Hd. unfold error, bind, secho, raise. simpl. now rewrite Hfile.
Qed.

(** X2.  Lines 95-97.  A folder in which no entry has an extension that begins
    with a digit: one message, exit status 1, nothing sent and nothing
    written. *)
Theorem upload_no_parts proceed entries :
  folder src = Some entries ->
  Forall (fun entry => is_part entry = false) entries ->
  upload s3 folder src proceed w
  = (inl (SystemExit 1),
     {| file := file w; out := out w ++ [(NoPartsIn src, Red)]; calls := calls w |}).
Proof.
  intros Hd Hnone. apply upload_raises_in_plan. unfold upload_plan.
  unfold bind at 1. unfold load. rewrite Hfile.
  unfold bind at 1. rewrite (session_fields_ok _ _ _ _ _ Hbucket Hkey Hid).
  rewrite Hd. unfold find_parts. rewrite (filter_keeps_none _ _ Hnone). simpl sorted.
  unfold when, error, bind, secho, raise. simpl. now rewrite Hfile.
Qed.

(** X3.  Lines 98-103.  Answering no to the prompt: the parts found have been
    listed in the order they would be sent, the process exits with status 0,
    nothing is sent and the record is as it was. *)
Theorem upload_declined entries :
  folder src = Some entries ->
  find_parts entries <> [] ->
  upload s3 folder src false w
  = (inl (SystemExit 0),
     {| file := file w;
        out := out w ++ listing src (find_parts entries);
        calls := calls w |}).
Proof.
  intros Hd Hne. apply upload_raises_in_plan. unfold upload_plan.
  unfold bind at 1. unfold load. rewrite Hfile.
  unfold bind at 1. rewrite (session_fields_ok _ _ _ _ _ Hbucket Hkey Hid).
  rewrite Hd. destruct (find_parts entries) as [| part parts] eqn:E; [contradiction |].
  unfold when, bind, ret, secho, raise. simpl negb. cbv iota.
  rewrite echo_names. unfold listing. simpl.
  now rewrite Hfile, <- app_assoc.
Qed.

End UploadStops.

Lemma upload_not_a_folder_witness :
  exit_status (fst (upload (fun _ _ => Returns PNone) (one_folder [big01]) "elsewhere" true
                      (holding first_session))) = 1
  /\ calls (snd (upload (fun _ _ => Returns PNone) (one_folder [big01]) "elsewhere" true
                   (holding first_session))) = [].
Proof.
  rewrite (upload_not_a_folder (fun _ _ => Returns PNone) (one_folder [big01])
             (holding first_session) first_session
             (PStr "bucket1") (PStr "obj.bin") (PStr "U1") "elsewhere"
             eq_refl eq_refl eq_refl eq_refl true eq_refl).
  split; reflexivity.
Defined.

Lemma upload_no_parts_witness :
  exit_status (fst (upload (fun _ _ => Returns PNone) (one_folder [readme]) "parts" true
                      (holding first_session))) = 1
  /\ calls (snd (upload (fun _ _ => Returns PNone) (one_folder [readme]) "parts" true
                   (holding first_session))) = [].
Proof.
  rewrite (upload_no_parts (fun _ _ => Returns PNone) (one_folder [readme])
             (holding first_session) first_session
             (PStr "bucket1") (PStr "obj.bin") (PStr "U1") "parts"
             eq_refl eq_refl eq_refl eq_refl true [readme] eq_refl
             (Forall_cons readme eq_refl (Forall_nil _))).
  split; reflexivity.
Defined.

Lemma upload_declined_witness :
  exit_status (fst (upload (fun _ _ => Returns PNone) (one_folder [big02; readme; big01])
                      "parts" false (holding first_session))) = 0
  /\ file (snd (upload (fun _ _ => Returns PNone) (one_folder [big02; readme; big01])
                  "parts" false (holding first_session)))
     = Some (Document first_session).
Proof.
  rewrite (upload_declined (fun _ _ => Returns PNone) (one_folder [big02; readme; big01])
             (holding first_session) first_session
             (PStr "bucket1") (PStr "obj.bin") (PStr "U1") "parts"
             eq_refl eq_refl eq_refl eq_refl [big02; readme; big01] eq_refl).
  - split; reflexivity.
  - discriminate.
Defined.

(** ** Records the commands cannot use *)

(** X4.  Lines 86-87, 127-128 and 147-148.  When [multipart.json] does not hold a
    JSON object, upload, abort and finalize end in the exception raised while
    the file is read; nothing is echoed, sent or written. *)
Theorem unreadable_record_stops s3 folder (c : command) w text e :
  requires_session c = true ->
  file w = Some text ->
  unreadable text = Some e ->
  cli s3 folder c w = (inl e, w).
Proof.
  intros Hc Hf He.
  destruct c; try discriminate Hc; simpl;
    [unfold upload, upload_plan | unfold abort | unfold finalize];
    rewrite (check_multipart_present _ _ _ Hf);
    rewrite ?bind_assoc;
    unfold bind at 1; unfold load; rewrite Hf;
    destruct text as [[] |]; try discriminate He;
    injection He as <-; reflexivity.
Qed.

Lemma unreadable_record_stops_witness :
  cli (fun _ _ => Returns (http 200)) (fun _ => None) Finalize
    {| file := Some Garbled; out := []; calls := [] |}
  = (inl JSONDecodeError, {| file := Some Garbled; out := []; calls := [] |}).
Proof.
  apply (unreadable_record_stops (fun _ _ => Returns (http 200)) (fun _ => None)
           Finalize {| file := Some Garbled; out := []; calls := [] |} Garbled);
    reflexivity.
Defined.

(** X5.  Lines 88-90, 129-131 and 149-151.  A record that lacks one of [Bucket],
    [Key] and [UploadId] makes upload, abort and finalize end in a [KeyError]
    on one of these keys; nothing is echoed, sent or written. *)
Theorem missing_field_stops s3 folder (c : command) w fields :
  requires_session c = true ->
  file w = Some (Document (PDict fields)) ->
  Py.lookup "Bucket" fields = None \/ Py.lookup "Key" fields = None
  \/ Py.lookup "UploadId" fields = None ->
  exists k,
    In k ["Bucket"; "Key"; "UploadId"]
    /\ cli s3 folder c w = (inl (KeyError k), w).
Proof.
  intros Hc Hf Hmiss.
  assert (F : exists k, In k ["Bucket"; "Key"; "UploadId"]
                        /\ session_fields (PDict fields) w = (inl (KeyError k), w)).
  { unfold session_fields, bind, lift, ret, raise, Py.getitem.
    destruct (Py.lookup "Bucket" fields); [| exists "Bucket"; simpl; auto].
    destruct (Py.lookup "Key" fields); [| exists "Key"; simpl; auto].
    destruct (Py.lookup "UploadId" fields); [| exists "UploadId"; simpl; auto].
    destruct Hmiss as [H | [H | H]]; discriminate H. }
  destruct F as [k [Hk F]]. exists k. split; [exact Hk |].
  destruct c; try discriminate Hc; simpl;
    [unfold upload, upload_plan | unfold abort | unfold finalize];
    rewrite (check_multipart_present _ _ _ Hf);
    rewrite ?bind_assoc;
    unfold bind at 1; unfold load; rewrite Hf;
    rewrite ?bind_assoc;
    now rewrite (bind_raise _ _ _ _ _ F).
Qed.

Lemma missing_field_stops_witness :
  exists k,
    In k ["Bucket"; "Key"; "UploadId"]
    /\ cli (fun _ _ => Returns (http 204)) (fun _ => None) Abort
         (holding (PDict [("Bucket", PStr "bucket1"); ("Key", PStr "obj.bin")]))
       = (inl (KeyError k),
          holding (PDict [("Bucket", PStr "bucket1"); ("Key", PStr "obj.bin")])).
Proof.
  apply (missing_field_stops (fun _ _ => Returns (http 204)) (fun _ => None) Abort
           (holding (PDict [("Bucket", PStr "bucket1"); ("Key", PStr "obj.bin")]))
           [("Bucket", PStr "bucket1"); ("Key", PStr "obj.bin")]);
    [reflexivity | reflexivity | right; right; reflexivity].
Defined.

(** ** init and a response that cannot be written *)

(** X6.  Lines 73-74.  The file is opened for writing before the response is
    serialised: when [json.dumps] rejects the response, [init] ends in a
    [TypeError] and leaves a state file that holds no JSON document, whatever
    the file held before. *)
Theorem init_unserialisable_response s3 bucket key w resp :
  s3 (calls w) (CreateMultipartUpload bucket key "AES256") = Returns resp ->
  Py.serialisable resp = false ->
  init s3 bucket key w
  = (inl TypeError,
     {| file := Some Garbled;
        out := out w;
        calls := calls w ++ [CreateMultipartUpload bucket key "AES256"] |}).
Proof.
  intros Hs Hj. unfold init, bind, call, open_w, json_dumps, raise.
  rewrite Hs. simpl. now rewrite Hj.
Qed.

Lemma init_unserialisable_response_witness :
  file (snd (init (fun _ _ => Returns (PDict [("UploadId", PStr "U2");
                                              ("AbortDate", PObj "datetime")]))
               "bucket1" "obj.bin" (holding first_session)))
  = Some Garbled.
Proof.
  rewrite (init_unserialisable_response
             (fun _ _ => Returns (PDict [("UploadId", PStr "U2");
                                         ("AbortDate", PObj "datetime")]))
             "bucket1" "obj.bin" (holding first_session)
             (PDict [("UploadId", PStr "U2"); ("AbortDate", PObj "datetime")])
             eq_refl eq_refl).
  reflexivity.
Defined.

(** X7.  Line 72.  Whatever the storage client answers, [init] calls it exactly
    once, asking for a multipart upload with AES-256 encryption. *)
Theorem init_calls_once s3 bucket key w :
  calls (snd (init s3 bucket key w))
  = calls w ++ [CreateMultipartUpload bucket key "AES256"].
Proof.
  unfold init, bind, call, open_w, json_dumps, write, secho, ret, raise.
  destruct (s3 (calls w) (CreateMultipartUpload bucket key "AES256")) as [resp | what];
    simpl; [| reflexivity].
  destruct (Py.serialisable resp); reflexivity.
Qed.

(** ** abort and finalize: the call they make *)

Section TerminalCalls.

Variable s3 : list request -> request -> reply.
Variable folder : string -> option (list dirent).
Variables (w : world) (data bucket key upload_id : pyval).
Hypothesis Hfile : file w = Some (Document data).
Hypothesis Hbucket : Py.getitem data "Bucket" = inr bucket.
Hypothesis Hkey : Py.getitem data "Key" = inr key.
Hypothesis Hid : Py.getitem data "UploadId" = inr upload_id.

(** X8.  Line 132.  An exception raised by the abort call is not caught: it ends
    the command, and the record is kept. *)
Theorem abort_call_raises what :
  s3 (calls w) (AbortMultipartUpload bucket key upload_id) = Raises what ->
  abort s3 w
  = (inl (ClientError what),
     {| file := file w; out := out w;
        calls := calls w ++ [AbortMultipartUpload bucket key upload_id] |}).
Proof.
  intros Hs. unfold abort. rewrite (check_multipart_present _ _ _ Hfile).
  unfold bind at 1. unfold load. rewrite Hfile.
  unfold bind at 1. rewrite (session_fields_ok _ _ _ _ _ Hbucket Hkey Hid).
  unfold bind, call. rewrite Hs. now rewrite Hfile.
Qed.

(** X9.  Lines 127-138.  abort makes exactly one call, for the upload the record
    names, whatever the answer is. *)
Theorem abort_calls_once :
  calls (snd (abort s3 w))
  = calls w ++ [AbortMultipartUpload bucket key upload_id].
Proof.
  unfold abort. rewrite (check_multipart_present _ _ _ Hfile).
  unfold bind at 1. unfold load. rewrite Hfile.
  unfold bind at 1. rewrite (session_fields_ok _ _ _ _ _ Hbucket Hkey Hid).
  unfold bind, call, lift, ret, raise, remove, secho, json_dumps.
  destruct (s3 (calls w) (AbortMultipartUpload bucket key upload_id)) as [resp | what];
    simpl; [| reflexivity].
  destruct (status_code resp) as [e | status]; simpl; [reflexivity |].
  destruct (Py.eq_int status 204); simpl.
  - now rewrite Hfile.
  - destruct (Py.serialisable resp); reflexivity.
Qed.

Variable parts : pyval.
Hypothesis Hparts : Py.getitem data "Parts" = inr parts.

(** X10.  Line 153.  An exception raised by the complete call ends finalize, and
    the record is kept. *)
Theorem finalize_call_raises what :
  s3 (calls w)
     (CompleteMultipartUpload bucket key upload_id (PDict [("Parts", parts)]))
  = Raises what ->
  finalize s3 w
  = (inl (ClientError what),
     {| file := file w; out := out w;
        calls := calls w
                 ++ [CompleteMultipartUpload bucket key upload_id
                       (PDict [("Parts", parts)])] |}).
Proof.
  intros Hs. unfold finalize. rewrite (check_multipart_present _ _ _ Hfile).
  unfold bind at 1. unfold load. rewrite Hfile.
  unfold bind at 1. rewrite (session_fields_ok _ _ _ _ _ Hbucket Hkey Hid).
  unfold bind, call, lift, ret. rewrite Hparts, Hs. now rewrite Hfile.
Qed.

Lemma finalize_trace :
  calls (snd (finalize s3 w))
  = calls w
    ++ [CompleteMultipartUpload bucket key upload_id (PDict [("Parts", parts)])].
Proof.
  unfold finalize. rewrite (check_multipart_present _ _ _ Hfile).
  unfold bind at 1. unfold load. rewrite Hfile.
  unfold bind at 1. rewrite (session_fields_ok _ _ _ _ _ Hbucket Hkey Hid).
  unfold bind, call, lift, ret, raise, remove, secho, json_dumps. rewrite Hparts.
  destruct (s3 (calls w)
              (CompleteMultipartUpload bucket key upload_id (PDict [("Parts", parts)])))
    as [resp | what]; simpl; [| reflexivity].
  destruct (status_code resp) as [e | status]; simpl; [reflexivity |].
  destruct (Py.eq_int status 200); simpl.
  - now rewrite Hfile.
  - destruct (Py.serialisable resp); reflexivity.
Qed.

(** X11.  Lines 147-153.  finalize makes exactly one call, and what it submits is
    the [Parts] value of the record as it is stored: same entries, same
    order, nothing merged or dropped. *)
Theorem finalize_submits_the_record :
  calls (snd (finalize s3 w))
  = calls w
    ++ [CompleteMultipartUpload bucket key upload_id (PDict [("Parts", parts)])].
Proof. exact finalize_trace. Qed.

End TerminalCalls.

Lemma abort_call_raises_witness :
  abort (fun _ _ => Raises "AccessDenied") (holding first_session)
  = (inl (ClientError "AccessDenied"),
     {| file := Some (Document first_session); out := [];
        calls := [AbortMultipartUpload (PStr "bucket1") (PStr "obj.bin") (PStr "U1")] |}).
Proof.
  apply (abort_call_raises (fun _ _ => Raises "AccessDenied") (holding first_session)
           first_session (PStr "bucket1") (PStr "obj.bin") (PStr "U1")
           eq_refl eq_refl eq_refl eq_refl "AccessDenied" eq_refl).
Defined.

Lemma abort_calls_once_witness :
  calls (snd (abort (fun _ _ => Returns (http 500)) (holding first_session)))
  = [AbortMultipartUpload (PStr "bucket1") (PStr "obj.bin") (PStr "U1")].
Proof.
  apply (abort_calls_once (fun _ _ => Returns (http 500)) (holding first_session)
           first_session (PStr "bucket1") (PStr "obj.bin") (PStr "U1")
           eq_refl eq_refl eq_refl eq_refl).
Defined.

Lemma finalize_call_raises_witness :
  file (snd (finalize (fun _ _ => Raises "NoSuchUpload") (holding recorded_session)))
  = Some (Document recorded_session).
Proof.
  rewrite (finalize_call_raises (fun _ _ => Raises "NoSuchUpload")
             (holding recorded_session) recorded_session
             (PStr "bucket1") (PStr "obj.bin") (PStr "U1")
             eq_refl eq_refl eq_refl eq_refl
             (PList [part_entry (PStr "e1") 1]) eq_refl "NoSuchUpload" eq_refl).
  reflexivity.
Defined.

Lemma finalize_submits_the_record_witness :
  calls (snd (finalize (fun _ _ => Returns (http 200)) (holding recorded_session)))
  = [CompleteMultipartUpload (PStr "bucket1") (PStr "obj.bin") (PStr "U1")
       (PDict [("Parts", PList [part_entry (PStr "e1") 1])])].
Proof.
  apply (finalize_submits_the_record (fun _ _ => Returns (http 200))
           (holding recorded_session) recorded_session
           (PStr "bucket1") (PStr "obj.bin") (PStr "U1")
           eq_refl eq_refl eq_refl eq_refl
           (PList [part_entry (PStr "e1") 1]) eq_refl).
Defined.

(** X12.  Lines 52-61 with 133-135 and 154-156.  Once abort (answered with
    status 204) or finalize (answered with status 200) has been confirmed the
    session is gone: upload, abort and finalize run next are turned away with
    exit status 1 and make no call.  For abort the record needs no [Parts]. *)
Theorem nothing_after_the_end
        s3 folder w data bucket key upload_id (c : command) resp :
  requires_session c = true ->
  file w = Some (Document data) ->
  Py.getitem data "Bucket" = inr bucket ->
  Py.getitem data "Key" = inr key ->
  Py.getitem data "UploadId" = inr upload_id ->
  (s3 (calls w) (AbortMultipartUpload bucket key upload_id) = Returns resp ->
   http_status resp = Some 204 ->
   bind (abort s3) (fun _ => cli s3 folder c) w
   = (inl (SystemExit 1),
      {| file := None;
         out := out w ++ [(Aborted bucket key, Yellow); (NoActiveUpload, Red)];
         calls := calls w ++ [AbortMultipartUpload bucket key upload_id] |}))
  /\
  (forall parts,
      Py.getitem data "Parts" = inr parts ->
      s3 (calls w)
         (CompleteMultipartUpload bucket key upload_id (PDict [("Parts", parts)]))
      = Returns resp ->
      http_status resp = Some 200 ->
      bind (finalize s3) (fun _ => cli s3 folder c) w
      = (inl (SystemExit 1),
         {| file := None;
            out := out w ++ [(Finalized bucket key, Green); (NoActiveUpload, Red)];
            calls := calls w
                     ++ [CompleteMultipartUpload bucket key upload_id
                           (PDict [("Parts", parts)])] |})).
Proof.
  intros Hc Hfile Hbucket Hkey Hid.
  assert (Gone : forall w0, file w0 = None ->
                 cli s3 folder c w0
                 = (inl (SystemExit 1),
                    {| file := None; out := out w0 ++ [(NoActiveUpload, Red)];
                       calls := calls w0 |})).
  { intros w0 H0. destruct c; try discriminate Hc; simpl;
      [unfold upload | unfold abort | unfold finalize];
      now apply check_multipart_absent. }
  split.
  - intros Hs Hn.
    rewrite (bind_ok _ _ _ _ _
               (abort_confirmed s3 w data bucket key upload_id
                  Hfile Hbucket Hkey Hid resp (PInt 204) Hs
                  (http_status_code _ _ Hn) eq_refl)).
    rewrite Gone by reflexivity. simpl. now rewrite <- app_assoc.
  - intros parts Hparts Hs Hn.
    rewrite (bind_ok _ _ _ _ _
               (finalize_confirmed s3 w data bucket key upload_id
                  Hfile Hbucket Hkey Hid parts Hparts resp (PInt 200) Hs
                  (http_status_code _ _ Hn) eq_refl)).
    rewrite Gone by reflexivity. simpl. now rewrite <- app_assoc.
Qed.

Lemma nothing_after_the_end_witness :
  exit_status (fst (bind (abort (fun _ _ => Returns (http 204)))
                      (fun _ => cli (fun _ _ => Returns (http 204)) (fun _ => None)
                                  (Upload "parts" true))
                      (holding first_session))) = 1.
Proof.
  rewrite (proj1 (nothing_after_the_end (fun _ _ => Returns (http 204)) (fun _ => None)
                    (holding first_session) first_session
                    (PStr "bucket1") (PStr "obj.bin") (PStr "U1")
                    (Upload "parts" true) (http 204)
                    eq_refl eq_refl eq_refl eq_refl eq_refl)
             eq_refl eq_refl).
  reflexivity.
Defined.

(** ** upload: the loop *)

(** A loop stops at the first item that raises. *)
Lemma for_each_stops {A} (done rest : list A) (x : A) (f : A -> M unit) w w1 e w2 :
  for_each done f w = (inr tt, w1) ->
  f x w1 = (inl e, w2) ->
  for_each (done ++ x :: rest) f w = (inl e, w2).
Proof.
  intros Hd Hx. rewrite for_each_app, (bind_ok _ _ _ _ _ Hd). simpl.
  now rewrite (bind_raise _ _ _ _ _ Hx).
Qed.

Lemma upload_one_raises s3 bucket key upload_id part number data what w :
  part_number part = Some number ->
  body part = Some data ->
  s3 (calls w) (UploadPart bucket key upload_id number data) = Raises what ->
  upload_one s3 bucket key upload_id part w
  = (inl (ClientError what),
     {| file := file w; out := out w;
        calls := calls w ++ [UploadPart bucket key upload_id number data] |}).
Proof.
  intros Hn Hb Hs. unfold upload_one. rewrite Hn, Hb.
  unfold bind, lift, ret, call. now rewrite Hs.
Qed.

(** X13.  Lines 108-111.  When the transfer of a part that has a number and
    can be opened raises, the run ends with that exception: the record holds
    what the parts before it added, and no later part is sent. *)
Theorem upload_stops_at_failed_part
        s3 bucket key upload_id done part rest number data what w w1 :
  for_each done (upload_one s3 bucket key upload_id) w = (inr tt, w1) ->
  part_number part = Some number ->
  body part = Some data ->
  s3 (calls w1) (UploadPart bucket key upload_id number data) = Raises what ->
  for_each (done ++ part :: rest) (upload_one s3 bucket key upload_id) w
  = (inl (ClientError what),
     {| file := file w1; out := out w1;
        calls := calls w1 ++ [UploadPart bucket key upload_id number data] |}).
Proof.
  intros Hd Hn Hb Hs. apply (for_each_stops _ _ _ _ _ _ _ _ Hd).
  now apply upload_one_raises.
Qed.

Lemma upload_stops_at_failed_part_witness :
  completed (snd (for_each ([big01] ++ big02 :: [])
                    (upload_one refuses_second (PStr "bucket1") (PStr "obj.bin") (PStr "U1"))
                    (holding first_session)))
  = Some [part_entry (PStr "e1") 1].
Proof.
  rewrite (upload_stops_at_failed_part refuses_second
             (PStr "bucket1") (PStr "obj.bin") (PStr "U1") [big01] big02 [] 2 "second"
             "RequestTimeout" (holding first_session)
             (snd (for_each [big01]
                     (upload_one refuses_second (PStr "bucket1") (PStr "obj.bin")
                        (PStr "U1"))
                     (holding first_session)))
             eq_refl eq_refl eq_refl eq_refl).
  reflexivity.
Defined.



(** X14.  Line 112 on the answers S3 gives.  When the transfer of a part
    that has a number and can be opened is answered with an entity tag
    wrapped in double quotes, the entry added to the record carries the tag
    without them, and the number of the part. *)
Theorem quoted_etag_is_recorded
        s3 bucket key upload_id part number data resp tag w fields old :
  part_number part = Some number ->
  body part = Some data ->
  s3 (calls w) (UploadPart bucket key upload_id number data) = Returns resp ->
  Py.getitem resp "ETag" = inr (PStr (quoted tag)) ->
  file w = Some (Document (PDict fields)) ->
  Py.serialisable (PDict fields) = true ->
  recorded fields = Some old ->
  fst (upload_one s3 bucket key upload_id part w) = inr tt
  /\ completed (snd (upload_one s3 bucket key upload_id part w))
     = Some (old ++ [part_entry (PStr tag) number]).
Proof.
  intros Hn Hb Hs Ht Hf Hj Hr.
  rewrite (upload_one_records s3 bucket key upload_id part number data resp (quoted tag)
             w fields old Hn Hb Hs Ht Hf Hj Hr).
  split; [reflexivity |]. unfold completed. simpl.
  now rewrite recorded_store, slice_quoted.
Qed.

Lemma quoted_etag_is_recorded_witness :
  completed (snd (upload_one (fun _ _ => Returns (etag_reply (quoted "9b2cf5")))
                    (PStr "bucket1") (PStr "obj.bin") (PStr "U1") big02
                    (holding recorded_session)))
  = Some ([part_entry (PStr "e1") 1] ++ [part_entry (PStr "9b2cf5") 2]).
Proof.
  apply (quoted_etag_is_recorded (fun _ _ => Returns (etag_reply (quoted "9b2cf5")))
           (PStr "bucket1") (PStr "obj.bin") (PStr "U1") big02 2 "second"
           (etag_reply (quoted "9b2cf5")) "9b2cf5" (holding recorded_session)
           [("Bucket", PStr "bucket1"); ("Key", PStr "obj.bin"); ("UploadId", PStr "U1");
            ("Parts", PList [PDict [("ETag", PStr "e1"); ("PartNumber", PInt 1)]])]
           [part_entry (PStr "e1") 1]);
    reflexivity.
Defined.

(** ** upload: a whole run *)

(** A confirmed run of [upload] in which every transfer succeeds. *)
Lemma upload_run s3 folder src entries w fields bucket key upload_id old tags :
  file w = Some (Document (PDict fields)) ->
  Py.serialisable (PDict fields) = true ->
  Py.lookup "Bucket" fields = Some bucket ->
  Py.lookup "Key" fields = Some key ->
  Py.lookup "UploadId" fields = Some upload_id ->
  recorded fields = Some old ->
  folder src = Some entries ->
  find_parts entries <> [] ->
  answered_with s3 bucket key upload_id (calls w) (find_parts entries) tags ->
  exists fields',
    upload s3 folder src true w
    = (inr tt,
       {| file := Some (Document (PDict fields'));
          out := out w ++ listing src (find_parts entries);
          calls := calls w
                   ++ map (request_for bucket key upload_id) (find_parts entries) |})
    /\ Py.serialisable (PDict fields') = true
    /\ recorded fields' = Some (old ++ entries_for (find_parts entries) tags)
    /\ other_fields fields' = other_fields fields.
Proof.
  intros Hf Hj Hb Hk Hu Hr Hd Hne Ha.
  assert (Plan := upload_plan_world folder src entries w (PDict fields)
                    bucket key upload_id Hf).
  unfold Py.getitem in Plan. rewrite Hb, Hk, Hu in Plan.
  specialize (Plan eq_refl eq_refl eq_refl Hd Hne).
  set (w0 := {| file := file w; out := out w ++ listing src (find_parts entries);
                calls := calls w |}) in *.
  destruct (upload_loop_trace s3 bucket key upload_id _ tags w0 fields old Hf Hj Hr Ha)
    as [fields' [Run Rest]].
  exists fields'. split; [| exact Rest].
  unfold upload. rewrite (check_multipart_present _ _ _ Hf).
  now rewrite (bind_ok _ _ _ _ _ Plan).
Qed.

(** X15.  Lines 105-111.  A confirmed run in which every transfer succeeds
    (each part found has a number, can be opened, and the call made for it is
    answered with an entity tag) makes one upload-part call per part found,
    in the order of their names, each with the bucket, key and upload id of
    the record, the number read from the extension and the content of the
    file; it makes no other call. *)
Theorem upload_sends_each_part_once
        s3 folder src entries w fields bucket key upload_id old tags :
  file w = Some (Document (PDict fields)) ->
  Py.serialisable (PDict fields) = true ->
  Py.lookup "Bucket" fields = Some bucket ->
  Py.lookup "Key" fields = Some key ->
  Py.lookup "UploadId" fields = Some upload_id ->
  recorded fields = Some old ->
  folder src = Some entries ->
  find_parts entries <> [] ->
  answered_with s3 bucket key upload_id (calls w) (find_parts entries) tags ->
  fst (upload s3 folder src true w) = inr tt
  /\ calls (snd (upload s3 folder src true w))
     = calls w ++ map (request_for bucket key upload_id) (find_parts entries).
Proof.
  intros Hf Hj Hb Hk Hu Hr Hd Hne Ha.
  destruct (upload_run s3 folder src entries w fields bucket key upload_id old tags)
    as [fields' [Run _]]; trivial.
  rewrite Run. split; reflexivity.
Qed.

(** X16.  Lines 113-117.  Such a run writes nothing but [Parts]: every other
    binding of the record, [Bucket], [Key] and [UploadId] among them, is kept
    with its value and in its place. *)
Theorem upload_keeps_other_fields
        s3 folder src entries w fields bucket key upload_id old tags :
  file w = Some (Document (PDict fields)) ->
  Py.serialisable (PDict fields) = true ->
  Py.lookup "Bucket" fields = Some bucket ->
  Py.lookup "Key" fields = Some key ->
  Py.lookup "UploadId" fields = Some upload_id ->
  recorded fields = Some old ->
  folder src = Some entries ->
  find_parts entries <> [] ->
  answered_with s3 bucket key upload_id (calls w) (find_parts entries) tags ->
  exists fields',
    file (snd (upload s3 folder src true w)) = Some (Document (PDict fields'))
    /\ other_fields fields' = other_fields fields
    /\ forall k, k <> "Parts" -> Py.lookup k fields' = Py.lookup k fields.
Proof.
  intros Hf Hj Hb Hk Hu Hr Hd Hne Ha.
  destruct (upload_run s3 folder src entries w fields bucket key upload_id old tags)
    as [fields' [Run [_ [_ Ho]]]]; trivial.
  exists fields'. rewrite Run. repeat split; trivial.
  intros k Hk'. now apply other_fields_lookup.
Qed.

Lemma upload_sends_each_part_once_witness :
  calls (snd (upload (fun _ _ => Returns (etag_reply (quoted "e1")))
                (one_folder [big02; readme; big01]) "parts" true
                (holding first_session)))
  = [] ++ map (request_for (PStr "bucket1") (PStr "obj.bin") (PStr "U1"))
            (find_parts [big02; readme; big01]).
Proof.
  apply (upload_sends_each_part_once
           (fun _ _ => Returns (etag_reply (quoted "e1")))
           (one_folder [big02; readme; big01]) "parts" [big02; readme; big01]
           (holding first_session)
           [("Bucket", PStr "bucket1"); ("Key", PStr "obj.bin"); ("UploadId", PStr "U1")]
           (PStr "bucket1") (PStr "obj.bin") (PStr "U1") []
           [quoted "e1"; quoted "e1"]);
    try reflexivity; [discriminate | answered].
Defined.

Lemma upload_keeps_other_fields_witness :
  exists fields',
    file (snd (upload (fun _ _ => Returns (etag_reply (quoted "e1")))
                 (one_folder [big02; readme; big01]) "parts" true
                 (holding first_session)))
    = Some (Document (PDict fields'))
    /\ other_fields fields'
       = other_fields [("Bucket", PStr "bucket1"); ("Key", PStr "obj.bin");
                       ("UploadId", PStr "U1")]
    /\ forall k, k <> "Parts" ->
                 Py.lookup k fields'
                 = Py.lookup k [("Bucket", PStr "bucket1"); ("Key", PStr "obj.bin");
                                ("UploadId", PStr "U1")].
Proof.
  apply (upload_keeps_other_fields
           (fun _ _ => Returns (etag_reply (quoted "e1")))
           (one_folder [big02; readme; big01]) "parts" [big02; readme; big01]
           (holding first_session)
           [("Bucket", PStr "bucket1"); ("Key", PStr "obj.bin"); ("UploadId", PStr "U1")]
           (PStr "bucket1") (PStr "obj.bin") (PStr "U1") []
           [quoted "e1"; quoted "e1"]);
    try reflexivity; [discriminate | answered].
Defined.

(** X17.  Lines 95-117 run twice.  [upload] does not look at what the record
    already shows: a second confirmed run sends every part again and adds a
    second entry for each, after the entries of the first run; every
    transfer of both runs is taken to succeed. *)
Theorem upload_again_adds_again
        s3 folder src entries w fields bucket key upload_id old tags1 tags2 :
  file w = Some (Document (PDict fields)) ->
  Py.serialisable (PDict fields) = true ->
  Py.lookup "Bucket" fields = Some bucket ->
  Py.lookup "Key" fields = Some key ->
  Py.lookup "UploadId" fields = Some upload_id ->
  recorded fields = Some old ->
  folder src = Some entries ->
  find_parts entries <> [] ->
  answered_with s3 bucket key upload_id (calls w) (find_parts entries) tags1 ->
  answered_with s3 bucket key upload_id
    (calls w ++ map (request_for bucket key upload_id) (find_parts entries))
    (find_parts entries) tags2 ->
  exists w2,
    bind (upload s3 folder src true) (fun _ => upload s3 folder src true) w
    = (inr tt, w2)
    /\ completed w2
       = Some (old ++ entries_for (find_parts entries) tags1
                   ++ entries_for (find_parts entries) tags2)
    /\ calls w2
       = calls w
         ++ map (request_for bucket key upload_id) (find_parts entries)
         ++ map (request_for bucket key upload_id) (find_parts entries).
Proof.
  intros Hf Hj Hb Hk Hu Hr Hd Hne Ha1 Ha2.
  destruct (upload_run s3 folder src entries w fields bucket key upload_id old tags1)
    as [fields1 [Run1 [Hj1 [Hr1 Ho1]]]]; trivial.
  set (w1 := {| file := Some (Document (PDict fields1));
                out := out w ++ listing src (find_parts entries);
                calls := calls w
                         ++ map (request_for bucket key upload_id) (find_parts entries) |})
    in *.
  destruct (upload_run s3 folder src entries w1 fields1 bucket key upload_id
              (old ++ entries_for (find_parts entries) tags1) tags2)
    as [fields2 [Run2 [_ [Hr2 _]]]]; trivial;
    try (rewrite (other_fields_lookup _ _ _ Ho1); [assumption | discriminate]).
  eexists. rewrite (bind_ok _ _ _ _ _ Run1), Run2.
  repeat split.
  - unfold completed. simpl. now rewrite Hr2, <- app_assoc.
  - simpl. now rewrite <- app_assoc.
Qed.

Lemma upload_again_adds_again_witness :
  exists w2,
    bind (upload (fun _ _ => Returns (etag_reply (quoted "e1")))
            (one_folder [big02; readme; big01]) "parts" true)
         (fun _ => upload (fun _ _ => Returns (etag_reply (quoted "e1")))
                     (one_folder [big02; readme; big01]) "parts" true)
         (holding first_session)
    = (inr tt, w2)
    /\ completed w2
       = Some ([] ++ entries_for (find_parts [big02; readme; big01])
                       [quoted "e1"; quoted "e1"]
                  ++ entries_for (find_parts [big02; readme; big01])
                       [quoted "e1"; quoted "e1"])
    /\ calls w2
       = [] ++ map (request_for (PStr "bucket1") (PStr "obj.bin") (PStr "U1"))
                 (find_parts [big02; readme; big01])
            ++ map (request_for (PStr "bucket1") (PStr "obj.bin") (PStr "U1"))
                 (find_parts [big02; readme; big01]).
Proof.
  apply (upload_again_adds_again
           (fun _ _ => Returns (etag_reply (quoted "e1")))
           (one_folder [big02; readme; big01]) "parts" [big02; readme; big01]
           (holding first_session)
           [("Bucket", PStr "bucket1"); ("Key", PStr "obj.bin"); ("UploadId", PStr "U1")]
           (PStr "bucket1") (PStr "obj.bin") (PStr "U1") []
           [quoted "e1"; quoted "e1"] [quoted "e1"; quoted "e1"]);
    try reflexivity; [discriminate | answered | answered].
Defined.

(** X18.  Lines 78-117 followed by 140-153.  After a confirmed run of
    [upload] in which every transfer succeeds, [finalize] submits the entries
    the record showed before the run followed by the entry of each part sent
    (its number and the tag it was answered with, less the first and last
    character), in the order they were sent. *)
Theorem upload_then_finalize
        s3 folder src entries w fields bucket key upload_id old tags :
  file w = Some (Document (PDict fields)) ->
  Py.serialisable (PDict fields) = true ->
  Py.lookup "Bucket" fields = Some bucket ->
  Py.lookup "Key" fields = Some key ->
  Py.lookup "UploadId" fields = Some upload_id ->
  recorded fields = Some old ->
  folder src = Some entries ->
  find_parts entries <> [] ->
  answered_with s3 bucket key upload_id (calls w) (find_parts entries) tags ->
  calls (snd (bind (upload s3 folder src true) (fun _ => finalize s3) w))
  = (calls w ++ map (request_for bucket key upload_id) (find_parts entries))
    ++ [CompleteMultipartUpload bucket key upload_id
          (PDict [("Parts", PList (old ++ entries_for (find_parts entries) tags))])].
Proof.
  intros Hf Hj Hb Hk Hu Hr Hd Hne Ha.
  destruct (upload_run s3 folder src entries w fields bucket key upload_id old tags)
    as [fields1 [Run1 [Hj1 [Hr1 Ho1]]]]; trivial.
  rewrite (bind_ok _ _ _ _ _ Run1).
  assert (Hadded : old ++ entries_for (find_parts entries) tags <> []).
  { pose proof (entries_for_length s3 bucket key upload_id _ _ _ Ha) as L.
    destruct (entries_for (find_parts entries) tags).
    - destruct (find_parts entries); [contradiction | discriminate L].
    - now destruct old. }
  set (w1 := {| file := Some (Document (PDict fields1));
                out := out w ++ listing src (find_parts entries);
                calls := calls w
                         ++ map (request_for bucket key upload_id) (find_parts entries) |}).
  assert (Hb1 : Py.getitem (PDict fields1) "Bucket" = inr bucket).
  { unfold Py.getitem.
    now rewrite (other_fields_lookup _ _ _ Ho1), Hb by discriminate. }
  assert (Hk1 : Py.getitem (PDict fields1) "Key" = inr key).
  { unfold Py.getitem.
    now rewrite (other_fields_lookup _ _ _ Ho1), Hk by discriminate. }
  assert (Hu1 : Py.getitem (PDict fields1) "UploadId" = inr upload_id).
  { unfold Py.getitem.
    now rewrite (other_fields_lookup _ _ _ Ho1), Hu by discriminate. }
  assert (Hp1 : Py.getitem (PDict fields1) "Parts"
                = inr (PList (old ++ entries_for (find_parts entries) tags))).
  { unfold Py.getitem. now rewrite (recorded_lookup _ _ Hr1 Hadded). }
  exact (finalize_trace s3 w1 (PDict fields1) bucket key upload_id
           eq_refl Hb1 Hk1 Hu1 _ Hp1).
Qed.

Lemma upload_then_finalize_witness :
  calls (snd (bind (upload (fun _ _ => Returns (etag_reply (quoted "e1")))
                      (one_folder [big02; readme; big01]) "parts" true)
                (fun _ => finalize (fun _ _ => Returns (etag_reply (quoted "e1"))))
                (holding first_session)))
  = ([] ++ map (request_for (PStr "bucket1") (PStr "obj.bin") (PStr "U1"))
             (find_parts [big02; readme; big01]))
    ++ [CompleteMultipartUpload (PStr "bucket1") (PStr "obj.bin") (PStr "U1")
          (PDict [("Parts", PList ([] ++ entries_for (find_parts [big02; readme; big01])
                                           [quoted "e1"; quoted "e1"]))])].
Proof.
  apply (upload_then_finalize
           (fun _ _ => Returns (etag_reply (quoted "e1")))
           (one_folder [big02; readme; big01]) "parts" [big02; readme; big01]
           (holding first_session)
           [("Bucket", PStr "bucket1"); ("Key", PStr "obj.bin"); ("UploadId", PStr "U1")]
           (PStr "bucket1") (PStr "obj.bin") (PStr "U1") []
           [quoted "e1"; quoted "e1"]);
    try reflexivity; [discriminate | answered].
Defined.

(** ** The entries [upload] takes for parts, in general *)

Lemma string_lt_trans a :
  forall b c,
    String.compare a b = Lt -> String.compare b c = Lt -> String.compare a c = Lt.
Proof.
  induction a as [| x a IH]; intros [| y b] [| z c]; simpl;
    try discriminate; try reflexivity.
  unfold Ascii.compare.
  destruct (N.compare_spec (N_of_ascii x) (N_of_ascii y)) as [E1 | E1 | E1];
    destruct (N.compare_spec (N_of_ascii y) (N_of_ascii z)) as [E2 | E2 | E2];
    destruct (N.compare_spec (N_of_ascii x) (N_of_ascii z)) as [E3 | E3 | E3];
    try discriminate; try lia; try reflexivity.
  apply IH.
Qed.

Lemma string_lt_gt a b : String.compare a b = Lt -> String.compare b a = Gt.
Proof. intros H. rewrite String.compare_antisym, H. reflexivity. Qed.

Lemma name_le_of_lt a b : String.ltb (name a) (name b) = true -> name_le a b.
Proof.
  unfold name_le, String.ltb. intros H.
  destruct (String.compare (name a) (name b)) eqn:E; try discriminate.
  now rewrite (string_lt_gt _ _ E).
Qed.

Lemma name_le_trans a b c : name_le a b -> name_le b c -> name_le a c.
Proof.
  unfold name_le, String.ltb. intros Hab Hbc.
  destruct (String.compare (name c) (name a)) eqn:Eca; try reflexivity.
  destruct (String.compare (name c) (name b)) eqn:Ecb; try discriminate.
  - apply String.compare_eq_iff in Ecb. rewrite <- Ecb, Eca in Hab. discriminate.
  - rewrite String.compare_antisym in Ecb.
    destruct (String.compare (name b) (name c)) eqn:Ebc; try discriminate.
    now rewrite (string_lt_trans _ _ _ Ebc Eca) in Hab.
Qed.

Lemma insert_name_sorted x l :
  StronglySorted name_le l -> StronglySorted name_le (insert x l).
Proof.
  induction 1 as [| y rest Hs IH Hy]; simpl.
  - repeat constructor.
  - destruct (String.ltb (name y) (name x)) eqn:E.
    + constructor; [exact IH |].
      apply (Permutation_Forall (insert_perm x rest)).
      constructor; [now apply name_le_of_lt | exact Hy].
    + constructor; [now constructor |].
      constructor; [exact E |].
      apply Forall_impl with (P := name_le y); [| exact Hy].
      intros z Hz. exact (name_le_trans x y z E Hz).
Qed.

Lemma sorted_name_sorted l : StronglySorted name_le (sorted l).
Proof.
  induction l as [| x rest IH]; simpl; [constructor | now apply insert_name_sorted].
Qed.

(** X19.  Line 95.  Whatever the folder holds, the parts found are the selected
    entries, each once, arranged so that no entry comes after one whose name
    is greater character by character. *)
Theorem find_parts_selects_and_sorts entries :
  Permutation (find_parts entries) (filter is_part entries)
  /\ StronglySorted name_le (find_parts entries)
  /\ forall entry,
       In entry (find_parts entries) <-> In entry entries /\ is_part entry = true.
Proof.
  assert (P : Permutation (find_parts entries) (filter is_part entries))
    by apply Permutation_sym, sorted_perm.
  split; [exact P |]. split; [apply sorted_name_sorted |].
  intros entry. rewrite <- filter_In. split; intros H.
  - exact (Permutation_in _ P H).
  - exact (Permutation_in _ (Permutation_sym P) H).
Qed.

Lemma rfind_split c s i :
  Path.rfind c s = Some i ->
  exists p q,
    s = (p ++ String c q)%string /\ String.length p = i /\ Path.rfind c q = None.
Proof.
  revert i. induction s as [| a rest IH]; simpl; intros i H; [discriminate |].
  destruct (Path.rfind c rest) as [j |] eqn:E.
  - injection H as <-. destruct (IH j eq_refl) as [p [q [-> [Hl Hq]]]].
    exists (String a p), q. simpl. now rewrite Hl.
  - destruct (Ascii.eqb_spec a c) as [-> |]; [| discriminate].
    injection H as <-. now exists EmptyString, rest.
Qed.

Lemma suffix_after_last_dot stem ext :
  stem <> EmptyString -> ext <> EmptyString -> Path.rfind "." ext = None ->
  Path.suffix (stem ++ String "." ext) = String "." ext.
Proof.
  intros Hs He Hd. unfold Path.suffix.
  rewrite (rfind_last_dot _ _ Hd), length_append.
  cbn [String.length].
  assert (L1 : (0 < String.length stem)%nat) by (destruct stem; [contradiction | simpl; lia]).
  assert (L2 : (0 < String.length ext)%nat) by (destruct ext; [contradiction | simpl; lia]).
  replace ((0 <? String.length stem)%nat) with true by (symmetry; apply Nat.ltb_lt; lia).
  replace ((String.length stem <? String.length stem + S (String.length ext) - 1)%nat)
    with true by (symmetry; apply Nat.ltb_lt; lia).
  simpl andb. cbv iota. rewrite substring_skip.
  replace (String.length stem + S (String.length ext) - String.length stem)%nat
    with (String.length (String "." ext)) by (simpl; lia).
  apply substring_all.
Qed.

(** A name whose suffix is not empty: the suffix is its last dot and what
    follows, and something comes before that dot. *)
Lemma suffix_nonempty file :
  Path.suffix file <> EmptyString ->
  exists stem ext,
    file = (stem ++ String "." ext)%string
    /\ stem <> EmptyString /\ ext <> EmptyString
    /\ Path.rfind "." ext = None
    /\ Path.suffix file = String "." ext.
Proof.
  intros H. pose proof H as H'. unfold Path.suffix in H'.
  destruct (Path.rfind "." file) as [i |] eqn:E; [| contradiction].
  destruct ((0 <? i)%nat && (i <? String.length file - 1)%nat) eqn:B; [| contradiction].
  apply andb_true_iff in B as [B1 B2].
  apply Nat.ltb_lt in B1. apply Nat.ltb_lt in B2.
  destruct (rfind_split _ _ _ E) as [stem [ext [-> [Hl Hq]]]].
  rewrite length_append in B2. cbn [String.length] in B2.
  assert (Hs : stem <> EmptyString) by (intros ->; simpl in Hl; lia).
  assert (He : ext <> EmptyString) by (intros ->; simpl in B2; lia).
  exists stem, ext. repeat split; trivial.
  now apply suffix_after_last_dot.
Qed.

(** X20.  Line 95, the test.  An entry is taken for a part exactly when its name
    is a non-empty stem, a dot, a digit, and then any characters but a dot:
    what follows the first digit of the extension is not looked at, and a
    name that begins with its only dot is never taken. *)
Theorem is_part_iff entry :
  is_part entry = true
  <-> exists stem d tail,
        name entry = (stem ++ String "." (String d tail))%string
        /\ stem <> EmptyString
        /\ Py.is_digit d = true
        /\ Path.rfind "." tail = None.
Proof.
  unfold is_part. split.
  - intros H.
    destruct (Path.suffix (name entry)) as [| c0 s0] eqn:S; [discriminate |].
    assert (Hne : Path.suffix (name entry) <> EmptyString) by (rewrite S; discriminate).
    destruct (suffix_nonempty _ Hne) as [stem [ext [Hn [Hs [He [Hd Hsuf]]]]]].
    rewrite S in Hsuf. rewrite Hsuf in H. simpl in H.
    destruct ext as [| d tail]; [contradiction |].
    simpl in H. destruct (Py.is_digit d) eqn:Dd; [| discriminate].
    exists stem, d, tail. repeat split; trivial.
    simpl in Hd. destruct (Path.rfind "." tail); [discriminate | reflexivity].
  - intros [stem [d [tail [Hn [Hs [Dd Hd]]]]]].
    rewrite Hn, suffix_after_last_dot; trivial; [| discriminate |].
    + simpl. now rewrite Dd.
    + simpl. rewrite Hd. now rewrite (digit_not d "." Dd eq_refl).
Qed.

(** X21.  Line 109.  Zeros in front of the digits of an extension do not change
    the number of the part: [stem.0ext] and [stem.ext] are sent under the
    same number, the digits read in base 10. *)
Theorem leading_zero_is_ignored stem ext content1 content2 :
  stem <> EmptyString ->
  ext <> EmptyString ->
  all_digits ext = true ->
  part_number {| name := stem ++ String "." (String "0" ext); body := content1 |}
  = Some (decimal ext)
  /\ part_number {| name := stem ++ String "." ext; body := content2 |}
     = Some (decimal ext).
Proof.
  intros Hs He Hd.
  assert (L : (0 < String.length ext)%nat) by (destruct ext; [contradiction | simpl; lia]).
  split.
  - replace (decimal ext) with (decimal (String "0" ext)) by reflexivity.
    apply (padded_number stem (S (String.length ext)) Hs (Nat.lt_0_succ _)).
    repeat split. simpl. exact Hd.
  - apply (padded_number stem (String.length ext) Hs L). now repeat split.
Qed.

Lemma leading_zero_is_ignored_witness :
  part_number {| name := "big" ++ String "." (String "0" "7"); body := Some "a" |}
  = Some (decimal "7")
  /\ part_number {| name := "big" ++ String "." "7"; body := None |} = Some (decimal "7").
Proof.
  apply (leading_zero_is_ignored "big" "7" (Some "a") None);
    [discriminate | discriminate | reflexivity].
Defined.

(** ** init followed by upload *)

(** X22.  Lines 64-75 followed by 78-117.  The record [init] writes is the
    response of the create call, which has no [Parts]; the first confirmed
    run of [upload] on it, with every transfer a success, leaves a record
    that shows exactly the entry of each part found (its number and the tag
    it was answered with, less the first and last character), in the order
    they were sent. *)
Theorem init_then_upload
        s3 folder src entries w fields bucket key bucket' key' upload_id tags :
  s3 (calls w) (CreateMultipartUpload bucket key "AES256") = Returns (PDict fields) ->
  Py.serialisable (PDict fields) = true ->
  Py.lookup "Bucket" fields = Some bucket' ->
  Py.lookup "Key" fields = Some key' ->
  Py.lookup "UploadId" fields = Some upload_id ->
  Py.lookup "Parts" fields = None ->
  folder src = Some entries ->
  find_parts entries <> [] ->
  answered_with s3 bucket' key' upload_id
    (calls w ++ [CreateMultipartUpload bucket key "AES256"])
    (find_parts entries) tags ->
  exists w2,
    bind (init s3 bucket key) (fun _ => upload s3 folder src true) w = (inr tt, w2)
    /\ completed w2 = Some (entries_for (find_parts entries) tags)
    /\ calls w2
       = (calls w ++ [CreateMultipartUpload bucket key "AES256"])
         ++ map (request_for bucket' key' upload_id) (find_parts entries).
Proof.
  intros Hc Hj Hb Hk Hu Hnp Hd Hne Ha.
  rewrite (bind_ok _ _ _ _ _ (init_replied s3 bucket key w (PDict fields) Hc Hj)).
  set (w1 := {| file := Some (Document (PDict fields));
                out := out w ++ [(Started bucket key, Green)];
                calls := calls w ++ [CreateMultipartUpload bucket key "AES256"] |}).
  assert (Hr : recorded fields = Some []) by (unfold recorded; now rewrite Hnp).
  destruct (upload_run s3 folder src entries w1 fields bucket' key' upload_id [] tags)
    as [fields1 [Run [_ [Hr1 _]]]]; trivial.
  eexists. rewrite Run. repeat split. unfold completed. simpl. exact Hr1.
Qed.

Lemma init_then_upload_witness :
  exists w2,
    bind (init (fun _ rq => match rq with
                            | CreateMultipartUpload _ _ _ => Returns first_session
                            | _ => Returns (etag_reply (quoted "e1"))
                            end) "bucket1" "obj.bin")
         (fun _ => upload (fun _ rq => match rq with
                                       | CreateMultipartUpload _ _ _ => Returns first_session
                                       | _ => Returns (etag_reply (quoted "e1"))
                                       end)
                     (one_folder [big02; readme; big01]) "parts" true)
         no_file
    = (inr tt, w2)
    /\ completed w2
       = Some (entries_for (find_parts [big02; readme; big01]) [quoted "e1"; quoted "e1"])
    /\ calls w2
       = ([] ++ [CreateMultipartUpload "bucket1" "obj.bin" "AES256"])
         ++ map (request_for (PStr "bucket1") (PStr "obj.bin") (PStr "U1"))
              (find_parts [big02; readme; big01]).
Proof.
  apply (init_then_upload
           (fun _ rq => match rq with
                        | CreateMultipartUpload _ _ _ => Returns first_session
                        | _ => Returns (etag_reply (quoted "e1"))
                        end)
           (one_folder [big02; readme; big01]) "parts" [big02; readme; big01] no_file
           [("Bucket", PStr "bucket1"); ("Key", PStr "obj.bin"); ("UploadId", PStr "U1")]
           "bucket1" "obj.bin" (PStr "bucket1") (PStr "obj.bin") (PStr "U1")
           [quoted "e1"; quoted "e1"]);
    try reflexivity; [discriminate | answered].
Defined.
